(** * The pip mirror command generator (src/src/App.vue)

    A shallow embedding of the script block of the single Vue component of
    the repository: the reactive references become the fields of a state
    record, every handler becomes a function on that record, and the
    browser services the handlers call (localStorage, the document body's
    class list, the clipboard, timers, the console) are fields of the same
    record, so that every effect of a handler is visible in its result. *)

From Stdlib Require Import ZArith Ascii String List Bool Lia.
From stdpp Require Import base option list gmap.

Local Open Scope Z_scope.
Set Warnings "-register-all".

(** ** JavaScript strings

    A JavaScript string is a finite sequence of UTF-16 code units.  [===]
    on two strings is equality of these sequences. *)

Abbreviation code_unit := N.
Abbreviation jsstring := (list N).

(** A string literal of the source that only holds Basic Latin characters:
    each byte is its own code unit. *)
Definition js (s : string) : jsstring :=
  (fun a => N_of_ascii a) <$> list_ascii_of_string s.

(** [!s] for a string [s]: only the empty string is falsy. *)
Definition falsy_string (s : jsstring) : bool :=
  match s with [] => true | _ :: _ => false end.

(** [!v] for a value that is a string or [undefined]. *)
Definition falsy (v : option jsstring) : bool :=
  match v with None => true | Some s => falsy_string s end.

Module JSString.

(** [s.startsWith(p)], code unit by code unit. *)
Fixpoint startsWith (s p : jsstring) {struct p} : bool :=
  match p, s with
  | [], _ => true
  | _ :: _, [] => false
  | c :: p', d :: s' => (c =? d)%N && startsWith s' p'
  end.

(** [s.includes(p)]: [p] occurs in [s] at some position. *)
Fixpoint includes (s p : jsstring) : bool :=
  startsWith s p ||
  match s with
  | [] => false
  | _ :: s' => includes s' p
  end.

(** What the spec calls a substring: a contiguous run of code units. *)
Definition substring_of (p s : jsstring) : Prop :=
  exists l r, s = l ++ p ++ r.

End JSString.

(** [String.prototype.toLowerCase] is a service of the JavaScript runtime
    (it follows the Unicode case mapping tables); the component only calls
    it.  The development is parametric in it. *)
Class StringRuntime := toLowerCase : jsstring -> jsstring.

(** The restriction of [toLowerCase] to the Basic Latin block, where it adds
    32 to the code units of A to Z and keeps every other code unit.  It
    agrees with the runtime's function on strings of Basic Latin characters
    and is used to run the model on such inputs. *)
Definition lower_basic_latin (c : code_unit) : code_unit :=
  if ((65 <=? c) && (c <=? 90))%N then (c + 32)%N else c.

Definition toLowerCase_basic_latin : StringRuntime :=
  fun s => lower_basic_latin <$> s.

(** ** JSON

    [JSON.parse] and [JSON.stringify] are services of the runtime as well,
    but the component's behaviour on a stored text depends on what they do
    with it, so they are written out: the grammar of JSON texts (ECMA-404)
    for the parser, and [QuoteJSONString] for the printer of an array of
    strings, the only value the component ever prints. *)
Module JSON.

(** A parsed JSON value.  A number keeps its lexeme: the component never
    computes with one. *)
Inductive json : Type :=
| JNull
| JBool (b : bool)
| JNumber (lexeme : jsstring)
| JString (s : jsstring)
| JArray (items : list json)
| JObject (members : list (jsstring * json)).

Local Open Scope N_scope.

(** Tab, line feed, carriage return and space. *)
Definition is_ws (c : code_unit) : bool :=
  (c =? 9) || (c =? 10) || (c =? 13) || (c =? 32).

Fixpoint skip_ws (s : jsstring) : jsstring :=
  match s with
  | c :: s' => if is_ws c then skip_ws s' else s
  | [] => []
  end.

Definition is_digit (c : code_unit) : bool := (48 <=? c) && (c <=? 57).

Definition hex_value (c : code_unit) : option N :=
  if (48 <=? c) && (c <=? 57) then Some (c - 48)
  else if (65 <=? c) && (c <=? 70) then Some (c - 55)
  else if (97 <=? c) && (c <=? 102) then Some (c - 87)
  else None.

Definition hex4 (h1 h2 h3 h4 : code_unit) : option code_unit :=
  a ← hex_value h1; b ← hex_value h2; c ← hex_value h3; d ← hex_value h4;
  Some (((a * 16 + b) * 16 + c) * 16 + d).

(** The character a one-letter escape stands for: the double quote, the
    backslash, the slash, and b f n r t. *)
Definition unescape (e : code_unit) : option code_unit :=
  if e =? 34 then Some 34
  else if e =? 92 then Some 92
  else if e =? 47 then Some 47
  else if e =? 98 then Some 8
  else if e =? 102 then Some 12
  else if e =? 110 then Some 10
  else if e =? 114 then Some 13
  else if e =? 116 then Some 9
  else None.

Definition push (c : code_unit) (r : option (jsstring * jsstring))
  : option (jsstring * jsstring) :=
  '(str, rest) ← r; Some (c :: str, rest).

(** The characters of a string after its opening double quote (34), up to
    and including the closing one; 92 is the backslash and 117 the letter
    u.  A control character is refused. *)
Fixpoint parse_chars (s : jsstring) : option (jsstring * jsstring) :=
  match s with
  | [] => None
  | c :: s' =>
      if c =? 34 then Some ([], s')
      else if c =? 92 then
        match s' with
        | [] => None
        | e :: s'' =>
            if e =? 117 then
              match s'' with
              | h1 :: h2 :: h3 :: h4 :: s3 =>
                  match hex4 h1 h2 h3 h4 with
                  | Some u => push u (parse_chars s3)
                  | None => None
                  end
              | _ => None
              end
            else
              match unescape e with
              | Some u => push u (parse_chars s'')
              | None => None
              end
        end
      else if c <? 32 then None
      else push c (parse_chars s')
  end.

Fixpoint span_digits (s : jsstring) : jsstring * jsstring :=
  match s with
  | c :: s' =>
      if is_digit c then let '(ds, r) := span_digits s' in (c :: ds, r)
      else ([], s)
  | [] => ([], [])
  end.

(** An optional exponent: e or E (101, 69), an optional sign (43, 45) and
    at least one digit. *)
Definition number_exponent (acc s : jsstring) : option (jsstring * jsstring) :=
  match s with
  | c :: r =>
      if (c =? 101) || (c =? 69) then
        let '(sg, r1) :=
          match r with
          | x :: r' => if (x =? 43) || (x =? 45) then ([x], r') else ([], r)
          | [] => ([], r)
          end in
        let '(ds, r2) := span_digits r1 in
        match ds with
        | [] => None
        | _ :: _ => Some (acc ++ c :: sg ++ ds, r2)
        end
      else Some (acc, s)
  | [] => Some (acc, s)
  end.

(** An optional fraction: a dot (46) and at least one digit. *)
Definition number_fraction (acc s : jsstring) : option (jsstring * jsstring) :=
  match s with
  | c :: r =>
      if c =? 46 then
        let '(ds, r2) := span_digits r in
        match ds with
        | [] => None
        | _ :: _ => number_exponent (acc ++ c :: ds) r2
        end
      else number_exponent acc s
  | [] => number_exponent acc s
  end.

(** A number: an optional minus (45), then a single 0 (48) or a non-zero
    digit followed by digits, then fraction and exponent. *)
Definition parse_number (s : jsstring) : option (jsstring * jsstring) :=
  let '(sign, s1) :=
    match s with
    | c :: r => if c =? 45 then ([c], r) else ([], s)
    | [] => ([], s)
    end in
  match s1 with
  | d :: r1 =>
      if d =? 48 then number_fraction (sign ++ [d]) r1
      else if is_digit d then
        let '(ds, r2) := span_digits r1 in number_fraction (sign ++ d :: ds) r2
      else None
  | [] => None
  end.

Fixpoint strip_prefix (p s : jsstring) : option jsstring :=
  match p, s with
  | [], _ => Some s
  | c :: p', d :: s' => if c =? d then strip_prefix p' s' else None
  | _ :: _, [] => None
  end.

(** The elements of a non-empty array after its opening bracket, up to and
    including the closing one (93); 44 is the comma.  [k] bounds the
    number of elements. *)
Fixpoint parse_elements (pv : jsstring -> option (json * jsstring))
    (k : nat) (s : jsstring) : option (list json * jsstring) :=
  match k with
  | O => None
  | S k' =>
      '(v, r) ← pv s;
      match skip_ws r with
      | c :: r' =>
          if c =? 44 then
            '(vs, r'') ← parse_elements pv k' r'; Some (v :: vs, r'')
          else if c =? 93 then Some ([v], r')
          else None
      | [] => None
      end
  end.

(** The members of a non-empty object after its opening brace, up to and
    including the closing one (125); 58 is the colon. *)
Fixpoint parse_members (pv : jsstring -> option (json * jsstring))
    (k : nat) (s : jsstring) : option (list (jsstring * json) * jsstring) :=
  match k with
  | O => None
  | S k' =>
      match skip_ws s with
      | c :: r =>
          if c =? 34 then
            '(name, r1) ← parse_chars r;
            match skip_ws r1 with
            | c1 :: r2 =>
                if c1 =? 58 then
                  '(v, r3) ← pv r2;
                  match skip_ws r3 with
                  | c3 :: r4 =>
                      if c3 =? 44 then
                        '(ms, r5) ← parse_members pv k' r4;
                        Some ((name, v) :: ms, r5)
                      else if c3 =? 125 then Some ([(name, v)], r4)
                      else None
                  | [] => None
                  end
                else None
            | [] => None
            end
          else None
      | [] => None
      end
  end.

(** A value, with the white space before it.  [fuel] bounds the nesting
    depth; 91 and 123 open an array and an object. *)
Fixpoint parse_value (fuel : nat) (s : jsstring) : option (json * jsstring) :=
  match fuel with
  | O => None
  | S fuel' =>
      match skip_ws s with
      | [] => None
      | c :: r =>
          if c =? 34 then
            '(str, r') ← parse_chars r; Some (JString str, r')
          else if c =? 91 then
            match skip_ws r with
            | c' :: r' =>
                if c' =? 93 then Some (JArray [], r')
                else '(vs, r'') ← parse_elements (parse_value fuel') (length r) r;
                     Some (JArray vs, r'')
            | [] => None
            end
          else if c =? 123 then
            match skip_ws r with
            | c' :: r' =>
                if c' =? 125 then Some (JObject [], r')
                else '(ms, r'') ← parse_members (parse_value fuel') (length r) r;
                     Some (JObject ms, r'')
            | [] => None
            end
          else
            match strip_prefix (js "true") (c :: r) with
            | Some r' => Some (JBool true, r')
            | None =>
            match strip_prefix (js "false") (c :: r) with
            | Some r' => Some (JBool false, r')
            | None =>
            match strip_prefix (js "null") (c :: r) with
            | Some r' => Some (JNull, r')
            | None => '(lexeme, r') ← parse_number (c :: r); Some (JNumber lexeme, r')
            end end end
      end
  end.

(** [JSON.parse(text)]: one value, white space around it, nothing else.
    [None] stands for the SyntaxError the runtime throws. *)
Definition parse (text : jsstring) : option json :=
  '(v, r) ← parse_value (S (length text)) text;
  match skip_ws r with
  | [] => Some v
  | _ :: _ => None
  end.

Definition hex_digit (n : N) : code_unit :=
  if n <? 10 then 48 + n else 87 + n.

(** The six characters of a unicode escape, with lower case digits. *)
Definition unicode_escape (c : code_unit) : jsstring :=
  [92; 117; hex_digit (c / 4096); hex_digit ((c / 256) mod 16);
   hex_digit ((c / 16) mod 16); hex_digit (c mod 16)].

Definition is_high_surrogate (c : code_unit) : bool :=
  (55296 <=? c) && (c <=? 56319).
Definition is_low_surrogate (c : code_unit) : bool :=
  (56320 <=? c) && (c <=? 57343).

(** How [QuoteJSONString] writes a code unit that is not a surrogate. *)
Definition escape_unit (c : code_unit) : jsstring :=
  if c =? 8 then [92; 98]
  else if c =? 9 then [92; 116]
  else if c =? 10 then [92; 110]
  else if c =? 12 then [92; 102]
  else if c =? 13 then [92; 114]
  else if c =? 34 then [92; 34]
  else if c =? 92 then [92; 92]
  else if c <? 32 then unicode_escape c
  else [c].

(** A surrogate pair is written as it is, a lone surrogate is escaped. *)
Fixpoint quote_chars (s : jsstring) : jsstring :=
  match s with
  | [] => []
  | c :: s' =>
      if is_high_surrogate c then
        match s' with
        | d :: s'' =>
            if is_low_surrogate d then c :: d :: quote_chars s''
            else unicode_escape c ++ quote_chars s'
        | [] => unicode_escape c
        end
      else if is_low_surrogate c then unicode_escape c ++ quote_chars s'
      else escape_unit c ++ quote_chars s'
  end.

Definition quote (s : jsstring) : jsstring := 34 :: quote_chars s ++ [34].

Fixpoint join_comma (l : list jsstring) : jsstring :=
  match l with
  | [] => []
  | [x] => x
  | x :: l' => x ++ 44 :: join_comma l'
  end.

(** [JSON.stringify(a)] for an array [a] of strings. *)
Definition stringify (a : list jsstring) : jsstring :=
  91 :: join_comma (quote <$> a) ++ [93].

(** The array of strings a parsed value is, if it is one. *)
Definition as_string (v : json) : option jsstring :=
  match v with JString s => Some s | _ => None end.

Definition as_string_array (v : json) : option (list jsstring) :=
  match v with
  | JArray items => mapM as_string items
  | _ => None
  end.

End JSON.

(** ** The component's state *)

(** What a [setTimeout] callback of the component does when it runs. *)
Inductive timer_callback : Type :=
| HideCopyMessage.   (* showCopyMessage.value = false *)

(** The six reactive references of the script block, followed by the
    browser objects its handlers write to.  [packageName] is bound to the
    text input and holds a string, or [undefined] ([None]) once Enter has
    read past the end of the suggestion list. *)
Record state : Type := mkState {
  packageName : option jsstring;
  showCopyMessage : bool;
  usedPackages : list jsstring;
  isDarkMode : bool;
  showSuggestions : bool;
  selectedIndex : Z;
  localStorage : gmap jsstring jsstring;
  body_dark_mode : bool;            (* document.body has the class dark-mode *)
  clipboard : option jsstring;      (* the last text written to the clipboard *)
  timers : list (timer_callback * Z);    (* pending callbacks and their delays *)
  console : list (jsstring * jsstring)   (* the lines of console.error *)
}.

Definition set_packageName (v : option jsstring) (st : state) : state :=
  mkState v (showCopyMessage st) (usedPackages st) (isDarkMode st)
    (showSuggestions st) (selectedIndex st) (localStorage st)
    (body_dark_mode st) (clipboard st) (timers st) (console st).

Definition set_showCopyMessage (v : bool) (st : state) : state :=
  mkState (packageName st) v (usedPackages st) (isDarkMode st)
    (showSuggestions st) (selectedIndex st) (localStorage st)
    (body_dark_mode st) (clipboard st) (timers st) (console st).

Definition set_usedPackages (v : list jsstring) (st : state) : state :=
  mkState (packageName st) (showCopyMessage st) v (isDarkMode st)
    (showSuggestions st) (selectedIndex st) (localStorage st)
    (body_dark_mode st) (clipboard st) (timers st) (console st).

Definition set_isDarkMode (v : bool) (st : state) : state :=
  mkState (packageName st) (showCopyMessage st) (usedPackages st) v
    (showSuggestions st) (selectedIndex st) (localStorage st)
    (body_dark_mode st) (clipboard st) (timers st) (console st).

Definition set_showSuggestions (v : bool) (st : state) : state :=
  mkState (packageName st) (showCopyMessage st) (usedPackages st) (isDarkMode st)
    v (selectedIndex st) (localStorage st)
    (body_dark_mode st) (clipboard st) (timers st) (console st).

Definition set_selectedIndex (v : Z) (st : state) : state :=
  mkState (packageName st) (showCopyMessage st) (usedPackages st) (isDarkMode st)
    (showSuggestions st) v (localStorage st)
    (body_dark_mode st) (clipboard st) (timers st) (console st).

(** [localStorage.setItem(k, v)] *)
Definition setItem (k v : jsstring) (st : state) : state :=
  mkState (packageName st) (showCopyMessage st) (usedPackages st) (isDarkMode st)
    (showSuggestions st) (selectedIndex st) (<[k := v]> (localStorage st))
    (body_dark_mode st) (clipboard st) (timers st) (console st).

(** [localStorage.getItem(k)]; [None] is the [null] of a missing key. *)
Definition getItem (k : jsstring) (st : state) : option jsstring :=
  localStorage st !! k.

Definition set_body_dark_mode (v : bool) (st : state) : state :=
  mkState (packageName st) (showCopyMessage st) (usedPackages st) (isDarkMode st)
    (showSuggestions st) (selectedIndex st) (localStorage st)
    v (clipboard st) (timers st) (console st).

Definition set_clipboard (v : option jsstring) (st : state) : state :=
  mkState (packageName st) (showCopyMessage st) (usedPackages st) (isDarkMode st)
    (showSuggestions st) (selectedIndex st) (localStorage st)
    (body_dark_mode st) v (timers st) (console st).

(** [setTimeout(callback, delay)] *)
Definition setTimeout (cb : timer_callback) (delay : Z) (st : state) : state :=
  mkState (packageName st) (showCopyMessage st) (usedPackages st) (isDarkMode st)
    (showSuggestions st) (selectedIndex st) (localStorage st)
    (body_dark_mode st) (clipboard st) (timers st ++ [(cb, delay)]) (console st).

(** [console.error(message, err)] *)
Definition console_error (message err : jsstring) (st : state) : state :=
  mkState (packageName st) (showCopyMessage st) (usedPackages st) (isDarkMode st)
    (showSuggestions st) (selectedIndex st) (localStorage st)
    (body_dark_mode st) (clipboard st) (timers st) (console st ++ [(message, err)]).

(** The references as the script block initialises them, in a browser whose
    storage is [storage]. *)
Definition initial (storage : gmap jsstring jsstring) : state :=
  mkState (Some []) false [] false false (-1) storage false None [] [].

Definition defaultPackages : list jsstring :=
  [js "pandas"; js "numpy"; js "requests"; js "pillow"; js "flask"].

(** An exception that leaves a handler. *)
Inductive exn : Type :=
| SyntaxError.   (* thrown by JSON.parse *)

(** How a handler that may throw ends.  [usedPackages] is typed as an array
    of strings, which is what every writer of the component stores in it;
    [Foreign v] records that [JSON.parse] returned a value [v] that is no
    array of strings and that the handler assigned it all the same. *)
Inductive completion : Type :=
| Normal (st : state)
| Throw (e : exn)
| Foreign (v : JSON.json).

(** [a[i]] for an array and a number that is an integer: [undefined] out of
    range. *)
Definition array_get {A} (a : list A) (i : Z) : option A :=
  if i <? 0 then None else a !! Z.to_nat i.

(** [===] on two strings. *)
Fixpoint strict_eq (s t : jsstring) : bool :=
  match s, t with
  | [], [] => true
  | c :: s', d :: t' => (c =? d)%N && strict_eq s' t'
  | _, _ => false
  end.

(** [a.includes(x)] for an array of strings and a string. *)
Definition Array_includes (a : list jsstring) (x : jsstring) : bool :=
  existsb (fun y => strict_eq y x) a.

(** [String(b)], the conversion [setItem] applies to a boolean. *)
Definition String_of_bool (b : bool) : jsstring :=
  if b then js "true" else js "false".

Record Mirror : Type := mkMirror { url : jsstring; name : jsstring }.

(** The four mirrors; the names are 阿里云镜像站, 中国科学技术大学镜像站,
    腾讯云镜像站 and 上海交通大学镜像站, given by their code units. *)
Definition mirrors : list Mirror :=
  [ mkMirror (js "https://mirrors.aliyun.com/pypi/simple")
      [38463; 37324; 20113; 38236; 20687; 31449]%N;
    mkMirror (js "https://pypi.mirrors.ustc.edu.cn/simple")
      [20013; 22269; 31185; 23398; 25216; 26415; 22823; 23398; 38236; 20687; 31449]%N;
    mkMirror (js "https://mirrors.cloud.tencent.com/pypi/simple/")
      [33150; 35759; 20113; 38236; 20687; 31449]%N;
    mkMirror (js "https://mirror.sjtu.edu.cn/pypi/web/simple/")
      [19978; 28023; 20132; 36890; 22823; 23398; 38236; 20687; 31449]%N ].

(** A keydown event: the key's name, and whether [preventDefault] was
    called on it. *)
Record KeyboardEvent : Type := mkKeyboardEvent {
  key : jsstring;
  defaultPrevented : bool
}.

Definition preventDefault (e : KeyboardEvent) : KeyboardEvent :=
  mkKeyboardEvent (key e) true.

(** How the promise of [navigator.clipboard.writeText] settles. *)
Inductive settled : Type :=
| Fulfilled
| Rejected (err : jsstring).

(** ** The handlers *)

Section Handlers.

Context `{StringRuntime}.

(** The computed [suggestions], as a function of the input text and of the
    history. *)
Definition suggestions_of (text : option jsstring) (history : list jsstring)
  : list jsstring :=
  match text with
  | None => []
  | Some s =>
      if falsy_string s then []
      else List.filter
             (fun pkg =>
                JSString.includes (toLowerCase pkg) (toLowerCase s)
                && negb (strict_eq pkg s))
             history
  end.

Definition suggestions (st : state) : list jsstring :=
  suggestions_of (packageName st) (usedPackages st).

(** [suggestions.value.length] *)
Definition suggestions_length (st : state) : Z :=
  Z.of_nat (length (suggestions st)).

(** The [v-if] of the suggestion box in the template: the box is on the
    page when [showSuggestions && suggestions.length]. *)
Definition suggestions_visible (st : state) : bool :=
  showSuggestions st && negb (suggestions_length st =? 0).

Definition handleKeydown (e : KeyboardEvent) (st : state)
  : KeyboardEvent * state :=
  if suggestions_length st =? 0 then (e, st)
  else if strict_eq (key e) (js "ArrowDown") then
    (preventDefault e,
     set_selectedIndex (Z.rem (selectedIndex st + 1) (suggestions_length st)) st)
  else if strict_eq (key e) (js "ArrowUp") then
    (preventDefault e,
     set_selectedIndex
       (if selectedIndex st <=? 0 then suggestions_length st - 1
        else selectedIndex st - 1) st)
  else if strict_eq (key e) (js "Enter") then
    if 0 <=? selectedIndex st then
      (preventDefault e,
       set_showSuggestions false
         (set_packageName (array_get (suggestions st) (selectedIndex st)) st))
    else (e, st)
  else if strict_eq (key e) (js "Escape") then
    (e, set_showSuggestions false st)
  else (e, st).

(** The state after the key named [k] went down in the text input. *)
Definition press (k : jsstring) (st : state) : state :=
  snd (handleKeydown (mkKeyboardEvent k false) st).

Definition handleInput (st : state) : state :=
  set_showSuggestions true (set_selectedIndex (-1) st).

(** An input event of the text input, whose new content is [text]: the
    [v-model] stores it and [handleInput] runs. *)
Definition input (text : jsstring) (st : state) : state :=
  handleInput (set_packageName (Some text) st).

Definition selectSuggestion (suggestion : jsstring) (st : state) : state :=
  set_showSuggestions false (set_packageName (Some suggestion) st).

(** A pending callback runs. *)
Definition run_timer (cb : timer_callback) (st : state) : state :=
  match cb with
  | HideCopyMessage => set_showCopyMessage false st
  end.

Definition loadUsedPackages (st : state) : completion :=
  let fresh :=
    let st1 := set_usedPackages defaultPackages st in
    Normal (setItem (js "usedPackages") (JSON.stringify (usedPackages st1)) st1) in
  match getItem (js "usedPackages") st with
  | Some stored =>
      if falsy_string stored then fresh
      else
        match JSON.parse stored with
        | None => Throw SyntaxError
        | Some v =>
            match JSON.as_string_array v with
            | Some a => Normal (set_usedPackages a st)
            | None => Foreign v
            end
        end
  | None => fresh
  end.

Definition savePackage (pkg : option jsstring) (st : state) : state :=
  match pkg with
  | None => st
  | Some p =>
      if falsy_string p || Array_includes (usedPackages st) p then st
      else
        let st1 := set_usedPackages (p :: usedPackages st) st in
        setItem (js "usedPackages") (JSON.stringify (usedPackages st1)) st1
  end.

Definition generateCommand (mirror : Mirror) (st : state) : jsstring :=
  match packageName st with
  | None => []
  | Some p =>
      if falsy_string p then []
      else js "pip install -i " ++ url mirror ++ js " " ++ p
  end.

(** [copyToClipboard(text)] from the point where the promise of
    [writeText] settles, on the state of that moment: the call itself
    only hands [text] to the clipboard and suspends. *)
Definition copyToClipboard (text : jsstring) (outcome : settled) (st : state)
  : state :=
  match outcome with
  | Fulfilled =>
      let st1 := set_clipboard (Some text) st in
      let st2 := savePackage (packageName st1) st1 in
      let st3 := set_showCopyMessage true st2 in
      setTimeout HideCopyMessage 2000 st3
  | Rejected err => console_error (js "Failed to copy text: ") err st
  end.

Definition selectPackage (pkg : jsstring) (st : state) : state :=
  set_packageName (Some pkg) st.

Definition deletePackage (pkg : jsstring) (st : state) : state :=
  let st1 :=
    set_usedPackages
      (List.filter (fun p => negb (strict_eq p pkg)) (usedPackages st)) st in
  setItem (js "usedPackages") (JSON.stringify (usedPackages st1)) st1.

Definition applyTheme (st : state) : state :=
  set_body_dark_mode (isDarkMode st) st.

Definition loadThemePreference (st : state) : state :=
  let stored := getItem (js "darkMode") st in
  applyTheme
    (set_isDarkMode
       (match stored with
        | Some s => strict_eq s (js "true")
        | None => false
        end) st).

Definition toggleTheme (st : state) : state :=
  let st1 := set_isDarkMode (negb (isDarkMode st)) st in
  let st2 := setItem (js "darkMode") (String_of_bool (isDarkMode st1)) st1 in
  applyTheme st2.

Definition onMounted (st : state) : completion :=
  match loadUsedPackages st with
  | Normal st1 => Normal (loadThemePreference st1)
  | other => other
  end.

End Handlers.

(** ** The words of the specification *)

(** [r] is the ordered subsequence of the entries of [l] that satisfy [P]:
    [l] is read from left to right, an entry that satisfies [P] is kept (as
    often as it occurs) and any other entry is dropped. *)
Inductive ordered_selection {A} (P : A -> Prop) : list A -> list A -> Prop :=
| selection_nil : ordered_selection P [] []
| selection_keep x l r :
    P x -> ordered_selection P l r -> ordered_selection P (x :: l) (x :: r)
| selection_drop x l r :
    ~ P x -> ordered_selection P l r -> ordered_selection P (x :: l) r.

Section Words.

Context `{StringRuntime}.

(** An entry contains the text as a case-insensitive substring: the lower
    case text is a substring of the lower case entry. *)
Definition contains_ignoring_case (text pkg : jsstring) : Prop :=
  JSString.substring_of (toLowerCase text) (toLowerCase pkg).

(** The two states of the navigation state machine: the suggestion box is
    on the page ([open]) or it is not ([closed]). *)
Definition open (st : state) : Prop := suggestions_visible st = true.
Definition closed (st : state) : Prop := suggestions_visible st = false.

End Words.

(** The storage is a write-through copy of the history. *)
Definition history_stored (st : state) : Prop :=
  getItem (js "usedPackages") st = Some (JSON.stringify (usedPackages st)).

(** [n] presses of the key [k], one after the other. *)
Definition presses `{StringRuntime} (n : nat) (k : jsstring) (st : state) : state :=
  Nat.iter n (press k) st.

(** ** The page and its events

    The template binds the handlers to the events of the page; what it
    shows follows from the state. *)

(** The command blocks of the template: one per mirror, in the order of
    [mirrors], under [v-if="packageName"]; each shows the mirror's name and
    [generateCommand(mirror)]. *)
Definition code_blocks (st : state) : list (jsstring * jsstring) :=
  if falsy (packageName st) then []
  else (fun mirror => (name mirror, generateCommand mirror st)) <$> mirrors.

(** The click on the copy button of a mirror's block, with the way the
    clipboard write it starts settles: [copyToClipboard(generateCommand(mirror))]. *)
Definition copy_click (mirror : Mirror) (outcome : settled) (st : state) : state :=
  copyToClipboard (generateCommand mirror st) outcome st.

Definition set_timers (v : list (timer_callback * Z)) (st : state) : state :=
  mkState (packageName st) (showCopyMessage st) (usedPackages st) (isDarkMode st)
    (showSuggestions st) (selectedIndex st) (localStorage st)
    (body_dark_mode st) (clipboard st) v (console st).

(** The oldest pending timer runs out: every timer of the script has the
    same delay, so they run in the order they were started. *)
Definition fire_timer (st : state) : state :=
  match timers st with
  | [] => st
  | (cb, _) :: rest => run_timer cb (set_timers rest st)
  end.

(** What can happen on the page once the component is mounted: the events
    the template listens to, the settling of a clipboard write and the
    running out of a timer. *)
Inductive event : Type :=
| InputEvent (text : jsstring)          (* v-model and @input *)
| KeydownEvent (k : jsstring)           (* @keydown *)
| SuggestionClick (suggestion : jsstring)
| PackageClick (pkg : jsstring)         (* a tag of the history *)
| DeleteClick (pkg : jsstring)          (* the cross on a tag *)
| CopySettles (text : jsstring) (outcome : settled)
| ThemeClick
| TimerFires.

Definition dispatch `{StringRuntime} (ev : event) (st : state) : state :=
  match ev with
  | InputEvent text => input text st
  | KeydownEvent k => press k st
  | SuggestionClick suggestion => selectSuggestion suggestion st
  | PackageClick pkg => selectPackage pkg st
  | DeleteClick pkg => deletePackage pkg st
  | CopySettles text outcome => copyToClipboard text outcome st
  | ThemeClick => toggleTheme st
  | TimerFires => fire_timer st
  end.

(** A session: the events of a list, from left to right. *)
Definition session `{StringRuntime} (evs : list event) (st : state) : state :=
  foldl (fun st ev => dispatch ev st) st evs.

(** The storage agrees with the theme: the literal of the boolean is stored,
    or nothing is and the theme is the light one. *)
Definition theme_stored (st : state) : Prop :=
  getItem (js "darkMode") st = Some (String_of_bool (isDarkMode st)) \/
  (getItem (js "darkMode") st = None /\ isDarkMode st = false).

(** ** Sample states, over the Basic Latin runtime *)

Module Samples.

#[local] Existing Instance toLowerCase_basic_latin.

(** The user typed num over the default history: the one suggestion is
    numpy, the box is open and nothing is selected. *)
Definition typed_num : state :=
  mkState (Some (js "num")) false defaultPackages false true (-1)
    {[ js "usedPackages" := JSON.stringify defaultPackages ]}
    false None [] [].

(** A browser whose stored history is not a JSON text. *)
Definition corrupt_storage : gmap jsstring jsstring :=
  {[ js "usedPackages" := js "pandas,numpy" ]}.

(** A browser whose stored history was written by the component. *)
Definition saved_storage : gmap jsstring jsstring :=
  {[ js "usedPackages" := JSON.stringify [js "scipy"; js "pandas"] ]}.

(** The component after it was mounted in a browser with an empty
    storage. *)
Definition first_visit : state :=
  mkState (Some []) false defaultPackages false false (-1)
    {[ js "usedPackages" := JSON.stringify defaultPackages ]}
    false None [] [].

(** The user typed p over the default history and went down twice: the
    suggestions are pandas, numpy and pillow, and numpy is selected. *)
Definition typed_p_second : state :=
  mkState (Some (js "p")) false defaultPackages false true 1
    {[ js "usedPackages" := JSON.stringify defaultPackages ]}
    false None [] [].

(** The text input holds pandas, an entry of the default history. *)
Definition named_pandas : state :=
  mkState (Some (js "pandas")) false defaultPackages false false (-1)
    {[ js "usedPackages" := JSON.stringify defaultPackages ]}
    false None [] [].

(** The component after it was mounted in a browser where another program
    stored the text 1 under darkMode. *)
Definition foreign_theme : state :=
  mkState (Some []) false defaultPackages false false (-1)
    {[ js "darkMode" := js "1";
       js "usedPackages" := JSON.stringify defaultPackages ]}
    false None [] [].

Definition aliyun : Mirror :=
  mkMirror (js "https://mirrors.aliyun.com/pypi/simple")
    [38463; 37324; 20113; 38236; 20687; 31449]%N.

(** A session on a first visit that leaves the selected index past the end
    of the suggestion list: the text p suggests pandas, numpy and pillow,
    three Down arrows select pillow, and pillow is deleted from the history. *)
Definition stale_session : list event :=
  [InputEvent (js "p"); KeydownEvent (js "ArrowDown");
   KeydownEvent (js "ArrowDown"); KeydownEvent (js "ArrowDown");
   DeleteClick (js "pillow")].

(** A longer session, with every kind of event. *)
Definition busy_session : list event :=
  stale_session ++
  [KeydownEvent (js "Enter"); InputEvent (js "scipy");
   CopySettles (js "pip install -i https://mirrors.aliyun.com/pypi/simple scipy")
     Fulfilled;
   ThemeClick; TimerFires; PackageClick (js "numpy");
   CopySettles (js "pip") (Rejected (js "NotAllowedError"));
   InputEvent (js "pan"); SuggestionClick (js "pandas"); KeydownEvent (js "Escape")].

End Samples.

(** * Properties *)

(** ** Strings *)

Lemma strict_eq_true (s t : jsstring) : strict_eq s t = true <-> s = t.
Proof.
  revert t; induction s as [|c s IH]; intros [|d t]; simpl; try (split; congruence).
  rewrite andb_true_iff, N.eqb_eq, IH. split.
  - intros [-> ->]; reflexivity.
  - intros [= -> ->]; split; reflexivity.
Qed.

Lemma strict_eq_false (s t : jsstring) : strict_eq s t = false <-> s <> t.
Proof.
  rewrite <- strict_eq_true. destruct (strict_eq s t); split; congruence.
Qed.

Lemma strict_eq_refl (s : jsstring) : strict_eq s s = true.
Proof. apply strict_eq_true; reflexivity. Qed.

Lemma falsy_string_false (s : jsstring) : falsy_string s = false <-> s <> [].
Proof. destruct s; simpl; split; congruence. Qed.

Lemma Array_includes_true (a : list jsstring) (x : jsstring) :
  Array_includes a x = true <-> x ∈ a.
Proof.
  unfold Array_includes. rewrite existsb_exists. split.
  - intros (y & Hin & Heq). apply strict_eq_true in Heq as ->.
    now apply list_elem_of_In.
  - intros Hin. exists x. split; [now apply list_elem_of_In | apply strict_eq_refl].
Qed.

Lemma Array_includes_false (a : list jsstring) (x : jsstring) :
  Array_includes a x = false <-> x ∉ a.
Proof.
  rewrite <- Array_includes_true. destruct (Array_includes a x); split; congruence.
Qed.

Module JSStringFacts.
Import JSString.

Lemma startsWith_prefix (s p : jsstring) :
  startsWith s p = true <-> exists r, s = p ++ r.
Proof.
  revert s; induction p as [|c p IH]; intros s; simpl.
  - split; [intros _; exists s; reflexivity | reflexivity].
  - destruct s as [|d s].
    + split; [discriminate | intros [r Hr]; discriminate].
    + rewrite andb_true_iff, N.eqb_eq, IH. split.
      * intros [-> [r ->]]. exists r; reflexivity.
      * intros [r [= -> ->]]. split; [reflexivity | exists r; reflexivity].
Qed.

(** [includes] decides the substring relation. *)
Lemma includes_substring (s p : jsstring) :
  includes s p = true <-> substring_of p s.
Proof.
  unfold substring_of. induction s as [|d s IH]; simpl.
  - rewrite orb_false_r, startsWith_prefix. split.
    + intros [r Hr]. exists [], r. exact Hr.
    + intros (l & r & Hlr). destruct l; [|discriminate]. exists r. exact Hlr.
  - rewrite orb_true_iff, IH.
    change (startsWith (d :: s) p = true \/ (exists l r, s = l ++ p ++ r)
            <-> (exists l r, d :: s = l ++ p ++ r)).
    rewrite startsWith_prefix. split.
    + intros [[r Hr] | (l & r & ->)].
      * exists [], r. exact Hr.
      * exists (d :: l), r. reflexivity.
    + intros (l & r & Hlr). destruct l as [|d' l].
      * left. exists r. exact Hlr.
      * right. injection Hlr as -> ->. exists l, r. reflexivity.
Qed.

End JSStringFacts.

(** ** JSON: the printer against the parser *)

Module JSONFacts.
Import JSON.
Local Open Scope N_scope.

Lemma hex_value_hex_digit (n : N) : n < 16 -> hex_value (hex_digit n) = Some n.
Proof.
  intros Hn. unfold hex_digit, hex_value.
  destruct (N.ltb_spec n 10).
  - replace ((48 <=? 48 + n) && (48 + n <=? 57)) with true.
    + f_equal. lia.
    + symmetry. apply andb_true_iff. split; apply N.leb_le; lia.
  - replace ((48 <=? 87 + n) && (87 + n <=? 57)) with false.
    replace ((65 <=? 87 + n) && (87 + n <=? 70)) with false.
    replace ((97 <=? 87 + n) && (87 + n <=? 102)) with true.
    + f_equal. lia.
    + symmetry. apply andb_true_iff. split; apply N.leb_le; lia.
    + symmetry. apply andb_false_iff. right. apply N.leb_gt. lia.
    + symmetry. apply andb_false_iff. right. apply N.leb_gt. lia.
Qed.

Lemma hex4_digits (c : code_unit) :
  c < 65536 ->
  hex4 (hex_digit (c / 4096)) (hex_digit ((c / 256) mod 16))
       (hex_digit ((c / 16) mod 16)) (hex_digit (c mod 16)) = Some c.
Proof.
  intros Hc. unfold hex4.
  rewrite !hex_value_hex_digit;
    try (apply N.mod_lt; discriminate);
    try (apply N.Div0.div_lt_upper_bound; exact Hc).
  cbn [mbind option_bind]. f_equal.
  pose proof (N.div_mod' c 16) as H1.
  pose proof (N.div_mod' (c / 16) 16) as H2.
  pose proof (N.div_mod' (c / 256) 16) as H3.
  replace (c / 16 / 16) with (c / 256) in H2 by (rewrite N.Div0.div_div; reflexivity).
  replace (c / 256 / 16) with (c / 4096) in H3 by (rewrite N.Div0.div_div; reflexivity).
  lia.
Qed.

Lemma parse_chars_plain (c : code_unit) (s : jsstring) :
  c <> 34 -> c <> 92 -> 32 <= c ->
  parse_chars (c :: s) = push c (parse_chars s).
Proof.
  intros H34 H92 H32. cbn [parse_chars].
  apply N.eqb_neq in H34 as ->. apply N.eqb_neq in H92 as ->.
  replace (c <? 32) with false by (symmetry; apply N.ltb_ge; exact H32).
  reflexivity.
Qed.

Lemma parse_chars_unicode_escape (c : code_unit) (s : jsstring) :
  c < 65536 ->
  parse_chars (unicode_escape c ++ s) = push c (parse_chars s).
Proof.
  intros Hc. unfold unicode_escape. cbn [app parse_chars N.eqb Pos.eqb].
  rewrite hex4_digits by exact Hc. reflexivity.
Qed.

Lemma parse_chars_escape_unit (c : code_unit) (s : jsstring) :
  parse_chars (escape_unit c ++ s) = push c (parse_chars s).
Proof.
  unfold escape_unit.
  repeat match goal with
    | |- context [c =? ?k] =>
        destruct (N.eqb_spec c k); [subst c; reflexivity|]
    end.
  destruct (N.ltb_spec c 32).
  - apply parse_chars_unicode_escape. lia.
  - apply parse_chars_plain; assumption.
Qed.

Lemma high_surrogate_range (c : code_unit) :
  is_high_surrogate c = true -> 55296 <= c <= 56319.
Proof. unfold is_high_surrogate. rewrite andb_true_iff, !N.leb_le. tauto. Qed.

Lemma low_surrogate_range (c : code_unit) :
  is_low_surrogate c = true -> 56320 <= c <= 57343.
Proof. unfold is_low_surrogate. rewrite andb_true_iff, !N.leb_le. tauto. Qed.

(** What [quote_chars] writes, [parse_chars] reads back. *)
Lemma parse_chars_quote_chars (s rest : jsstring) :
  parse_chars (quote_chars s ++ 34 :: rest) = Some (s, rest).
Proof.
  remember (length s) as n eqn:Hn.
  revert s Hn. induction n as [n IH] using lt_wf_ind. intros s Hn.
  destruct s as [|c s']; [reflexivity|].
  cbn [quote_chars].
  destruct (is_high_surrogate c) eqn:Hhigh.
  - apply high_surrogate_range in Hhigh.
    destruct s' as [|d s''].
    + rewrite parse_chars_unicode_escape by lia. reflexivity.
    + destruct (is_low_surrogate d) eqn:Hlow.
      * apply low_surrogate_range in Hlow.
        cbn [app]. rewrite !parse_chars_plain by lia.
        rewrite (IH (length s'')) by (subst n; simpl; lia || reflexivity).
        reflexivity.
      * rewrite <- app_assoc, parse_chars_unicode_escape by lia.
        rewrite (IH (length (d :: s''))) by (subst n; simpl; lia || reflexivity).
        reflexivity.
  - destruct (is_low_surrogate c) eqn:Hlow.
    + apply low_surrogate_range in Hlow.
      rewrite <- app_assoc, parse_chars_unicode_escape by lia.
      rewrite (IH (length s')) by (subst n; simpl; lia || reflexivity).
      reflexivity.
    + rewrite <- app_assoc, parse_chars_escape_unit.
      rewrite (IH (length s')) by (subst n; simpl; lia || reflexivity).
      reflexivity.
Qed.

Lemma quote_cons (s rest : jsstring) :
  quote s ++ rest = 34 :: quote_chars s ++ 34 :: rest.
Proof. unfold quote. cbn [app]. now rewrite <- app_assoc. Qed.

Lemma parse_value_quote (fuel : nat) (s rest : jsstring) :
  parse_value (S fuel) (quote s ++ rest) = Some (JString s, rest).
Proof.
  rewrite quote_cons. cbn [parse_value skip_ws is_ws N.eqb Pos.eqb orb].
  rewrite parse_chars_quote_chars. reflexivity.
Qed.

Lemma parse_elements_strings (fuel k : nat) (x : jsstring) (a : list jsstring)
    (rest : jsstring) :
  (length a < k)%nat ->
  parse_elements (parse_value (S fuel)) k
    (join_comma (quote <$> x :: a) ++ 93 :: rest)
  = Some (JString <$> x :: a, rest).
Proof.
  revert x k. induction a as [|y a IH]; intros x k Hk;
    (destruct k as [|k]; [simpl in Hk; lia|]).
  - cbn [fmap list_fmap join_comma parse_elements].
    rewrite parse_value_quote. reflexivity.
  - change (join_comma (quote <$> x :: y :: a))
      with (quote x ++ 44 :: join_comma (quote <$> y :: a)).
    rewrite <- app_assoc. cbn [parse_elements].
    rewrite parse_value_quote.
    cbn [mbind option_bind skip_ws is_ws N.eqb Pos.eqb orb app].
    rewrite IH by (simpl in Hk; lia). reflexivity.
Qed.

Lemma join_comma_length (a : list jsstring) :
  (length a <= length (join_comma (quote <$> a)))%nat.
Proof.
  induction a as [|x [|y a] IH].
  - simpl. lia.
  - simpl. lia.
  - change (join_comma (quote <$> x :: y :: a))
      with (quote x ++ 44 :: join_comma (quote <$> y :: a)).
    rewrite length_app. simpl length in *. lia.
Qed.

Lemma parse_value_array (fuel : nat) (c : code_unit) (r : jsstring) :
  is_ws c = false -> c <> 93 ->
  parse_value (S fuel) (91 :: c :: r)
  = parse_elements (parse_value fuel) (length (c :: r)) (c :: r)
      ≫= λ '(vs, r''), Some (JArray vs, r'').
Proof.
  intros Hws Hc. cbn [parse_value skip_ws is_ws N.eqb Pos.eqb orb].
  fold (is_ws c). rewrite Hws.
  apply N.eqb_neq in Hc as ->. reflexivity.
Qed.

(** [JSON.parse] reads back the array of strings that [JSON.stringify]
    wrote. *)
Lemma parse_stringify (a : list jsstring) :
  parse (stringify a) = Some (JArray (JString <$> a)).
Proof.
  destruct a as [|x a]; [reflexivity|].
  unfold parse, stringify.
  assert (length a < length (join_comma (quote <$> x :: a) ++ [93%N]))%nat as Hlen.
  { rewrite length_app.
    pose proof (join_comma_length (x :: a)) as Hj. simpl length in *. lia. }
  assert (exists r, join_comma (quote <$> x :: a) ++ [93] = 34 :: r) as [r Hr].
  { destruct a as [|y a]; cbn [fmap list_fmap join_comma].
    - eexists. apply quote_cons.
    - rewrite <- app_assoc. eexists. apply quote_cons. }
  rewrite Hr. cbn [length].
  rewrite parse_value_array by (reflexivity || discriminate).
  rewrite <- Hr. rewrite parse_elements_strings by exact Hlen.
  reflexivity.
Qed.

End JSONFacts.

(** ** Ordered selections *)

Section Selection.

Context {A : Type} (P : A -> Prop).

(** A filter whose test decides [P] computes the ordered selection. *)
Lemma filter_ordered_selection (f : A -> bool) (l : list A) :
  (forall x, f x = true <-> P x) ->
  ordered_selection P l (List.filter f l).
Proof.
  intros Hf. induction l as [|x l IH]; simpl.
  - constructor.
  - destruct (f x) eqn:Hx.
    + apply selection_keep; [now apply Hf | exact IH].
    + apply selection_drop; [|exact IH].
      intros HP. apply Hf in HP. congruence.
Qed.

(** There is one ordered selection of a list. *)
Lemma ordered_selection_unique (l r1 r2 : list A) :
  ordered_selection P l r1 -> ordered_selection P l r2 -> r1 = r2.
Proof.
  intros H1; revert r2.
  induction H1 as [|x l r HP _ IH|x l r HP _ IH]; intros r2 H2;
    inversion H2; subst; try contradiction; try reflexivity.
  - f_equal. now apply IH.
  - now apply IH.
Qed.

Lemma ordered_selection_elem_of (l r : list A) (x : A) :
  ordered_selection P l r -> (x ∈ r <-> x ∈ l /\ P x).
Proof.
  induction 1 as [|y l r HP _ IH|y l r HP _ IH].
  - split; [intros Hx | intros [Hx _]]; inversion Hx.
  - rewrite !elem_of_cons, IH. split.
    + intros [-> | [? ?]]; auto.
    + intros [[-> | ?] ?]; auto.
  - rewrite elem_of_cons, IH. split.
    + intros [? ?]; auto.
    + intros [[-> | ?] ?]; [contradiction | auto].
Qed.

Lemma ordered_selection_sublist (l r : list A) :
  ordered_selection P l r -> sublist r l.
Proof. induction 1; constructor; assumption. Qed.

Lemma ordered_selection_NoDup (l r : list A) :
  ordered_selection P l r -> NoDup l -> NoDup r.
Proof.
  intros Hs Hl. eapply sublist_NoDup; [exact Hl | now apply ordered_selection_sublist].
Qed.

End Selection.

(** ** The suggestion list *)

Section SuggestionFacts.

Context `{StringRuntime}.

Lemma suggestion_test (s pkg : jsstring) :
  JSString.includes (toLowerCase pkg) (toLowerCase s) && negb (strict_eq pkg s) = true
  <-> contains_ignoring_case s pkg /\ pkg <> s.
Proof.
  rewrite andb_true_iff, negb_true_iff, strict_eq_false.
  unfold contains_ignoring_case.
  now rewrite JSStringFacts.includes_substring.
Qed.

(** Over a text that is not empty the computed list is the filter. *)
Lemma suggestions_nonempty_text (s : jsstring) (history : list jsstring) :
  s <> [] ->
  ordered_selection (fun pkg => contains_ignoring_case s pkg /\ pkg <> s)
    history (suggestions_of (Some s) history).
Proof.
  intros Hs. unfold suggestions_of.
  apply falsy_string_false in Hs as ->.
  apply filter_ordered_selection. intros pkg. apply suggestion_test.
Qed.

(** C1. For every history list and every input text, the suggestion list
    is the ordered subsequence of the history entries that contain the
    text as a case-insensitive substring and are not equal to the text;
    when the text is the empty string the suggestion list is empty. *)
Theorem suggestions_ordered_selection (s : jsstring) (history : list jsstring) :
  (s = [] -> suggestions_of (Some s) history = []) /\
  (s <> [] ->
   ordered_selection (fun pkg => contains_ignoring_case s pkg /\ pkg <> s)
     history (suggestions_of (Some s) history)).
Proof.
  split.
  - intros ->. reflexivity.
  - apply suggestions_nonempty_text.
Qed.

(** The suggestion list never holds the text itself, and holds no entry
    twice when the history holds none twice. *)
Theorem suggestions_without_text_or_duplicates (s : jsstring)
    (history : list jsstring) :
  (s ∉ suggestions_of (Some s) history) /\
  (NoDup history -> NoDup (suggestions_of (Some s) history)).
Proof.
  destruct (decide (s = [])) as [->|Hs].
  - split; [apply not_elem_of_nil | intros _; constructor].
  - pose proof (suggestions_nonempty_text s history Hs) as Hsel. split.
    + intros Hin. eapply ordered_selection_elem_of in Hin; [|exact Hsel].
      now destruct Hin as (_ & _ & Hne).
    + intros Hnd. eapply ordered_selection_NoDup; [exact Hsel | exact Hnd].
Qed.

End SuggestionFacts.

(** ** Keyboard navigation *)

(** Decides the comparisons of the [switch] on key names. *)
Ltac key_tests :=
  repeat match goal with
    | |- context [strict_eq (js ?a) (js ?b)] =>
        let v := eval vm_compute in (strict_eq (js a) (js b)) in
        change (strict_eq (js a) (js b)) with v
    end.

Ltac unfold_press :=
  unfold press, handleKeydown; cbn [key]; key_tests; cbn [snd].

Lemma set_selectedIndex_same (st : state) :
  set_selectedIndex (selectedIndex st) st = st.
Proof. destruct st; reflexivity. Qed.

Lemma set_selectedIndex_twice (i j : Z) (st : state) :
  set_selectedIndex j (set_selectedIndex i st) = set_selectedIndex j st.
Proof. reflexivity. Qed.

Section Navigation.

Context `{StringRuntime}.

Lemma suggestions_length_0 (st : state) :
  suggestions_length st = 0 <-> suggestions st = [].
Proof.
  unfold suggestions_length. destruct (suggestions st); simpl; split;
    (congruence || lia).
Qed.

Lemma suggestions_length_pos (st : state) :
  suggestions st <> [] -> 0 < suggestions_length st.
Proof.
  unfold suggestions_length. destruct (suggestions st); simpl; [congruence | lia].
Qed.

(** With no suggestion, the handler returns before its [switch]. *)
Lemma press_no_suggestion (k : jsstring) (st : state) :
  suggestions st = [] -> press k st = st.
Proof.
  intros Hs. apply suggestions_length_0 in Hs.
  unfold press, handleKeydown. rewrite Hs. reflexivity.
Qed.

Lemma press_ArrowDown (st : state) :
  suggestions st <> [] ->
  press (js "ArrowDown") st =
  set_selectedIndex (Z.rem (selectedIndex st + 1) (suggestions_length st)) st.
Proof.
  intros Hs. apply suggestions_length_pos in Hs. unfold_press.
  destruct (Z.eqb_spec (suggestions_length st) 0); [lia | reflexivity].
Qed.

Lemma press_Enter (st : state) :
  suggestions st <> [] ->
  press (js "Enter") st =
  if 0 <=? selectedIndex st then
    set_showSuggestions false
      (set_packageName (array_get (suggestions st) (selectedIndex st)) st)
  else st.
Proof.
  intros Hs. apply suggestions_length_pos in Hs. unfold_press.
  destruct (Z.eqb_spec (suggestions_length st) 0); [lia|].
  destruct (0 <=? selectedIndex st); reflexivity.
Qed.

Lemma press_Escape (st : state) :
  press (js "Escape") st =
  if suggestions_length st =? 0 then st else set_showSuggestions false st.
Proof. unfold_press. destruct (suggestions_length st =? 0); reflexivity. Qed.

(** [k] presses of the Down arrow, [k] at least one, from an index that is
    at least -1, over [n] suggestions. *)
Lemma presses_ArrowDown (k : nat) (st : state) :
  suggestions st <> [] -> -1 <= selectedIndex st ->
  presses (S k) (js "ArrowDown") st =
  set_selectedIndex
    ((selectedIndex st + Z.of_nat (S k)) mod suggestions_length st) st.
Proof.
  intros Hs Hi. pose proof (suggestions_length_pos st Hs) as Hn.
  unfold presses. induction k as [|k IH].
  - simpl Nat.iter. rewrite press_ArrowDown by exact Hs.
    rewrite Z.rem_mod_nonneg by lia. reflexivity.
  - rewrite Nat.iter_succ, IH.
    set (j := (selectedIndex st + Z.of_nat (S k)) mod suggestions_length st).
    assert (0 <= j < suggestions_length st) as Hj
      by (apply Z.mod_pos_bound; lia).
    rewrite press_ArrowDown by exact Hs.
    change (suggestions_length (set_selectedIndex j st)) with (suggestions_length st).
    change (selectedIndex (set_selectedIndex j st)) with j.
    rewrite set_selectedIndex_twice, Z.rem_mod_nonneg by lia.
    f_equal. unfold j. rewrite Zplus_mod_idemp_l. f_equal. lia.
Qed.

Lemma press_ArrowUp (st : state) :
  suggestions st <> [] ->
  press (js "ArrowUp") st =
  set_selectedIndex
    (if selectedIndex st <=? 0 then suggestions_length st - 1
     else selectedIndex st - 1) st.
Proof.
  intros Hs. apply suggestions_length_pos in Hs. unfold_press.
  destruct (Z.eqb_spec (suggestions_length st) 0); [lia | reflexivity].
Qed.

Lemma ArrowUp_after_ArrowDown (st : state) :
  suggestions st <> [] ->
  0 <= selectedIndex st < suggestions_length st ->
  press (js "ArrowUp") (press (js "ArrowDown") st) = st.
Proof.
  intros Hs Hi. rewrite press_ArrowDown by exact Hs.
  set (j := Z.rem (selectedIndex st + 1) (suggestions_length st)).
  rewrite press_ArrowUp by exact Hs.
  change (suggestions_length (set_selectedIndex j st)) with (suggestions_length st).
  change (selectedIndex (set_selectedIndex j st)) with j.
  rewrite set_selectedIndex_twice.
  replace (if j <=? 0 then suggestions_length st - 1 else j - 1)
    with (selectedIndex st); [apply set_selectedIndex_same|].
  unfold j. rewrite Z.rem_mod_nonneg by lia.
  destruct (Z.eq_dec (selectedIndex st + 1) (suggestions_length st)) as [He|He].
  - rewrite He, Z_mod_same_full. cbn [Z.leb Z.compare]. lia.
  - rewrite Z.mod_small by lia.
    destruct (Z.leb_spec (selectedIndex st + 1) 0); lia.
Qed.

(** Over a non-empty suggestion list of length N the Up arrow moves the
    selected index from -1 and from 0 to N - 1 and from any other index of
    the open state to the index before it; the index stays in the list, and
    after a Down arrow the Up arrow leads back. *)
Theorem ArrowUp_wraps (st : state) :
  suggestions st <> [] ->
  -1 <= selectedIndex st < suggestions_length st ->
  (selectedIndex st <= 0 ->
   selectedIndex (press (js "ArrowUp") st) = suggestions_length st - 1) /\
  (0 < selectedIndex st ->
   selectedIndex (press (js "ArrowUp") st) = selectedIndex st - 1) /\
  0 <= selectedIndex (press (js "ArrowUp") st) < suggestions_length st /\
  (0 <= selectedIndex st ->
   press (js "ArrowUp") (press (js "ArrowDown") st) = st).
Proof.
  intros Hs Hi. pose proof (suggestions_length_pos st Hs) as Hn.
  rewrite (press_ArrowUp st) by exact Hs.
  cbn [selectedIndex set_selectedIndex].
  destruct (Z.leb_spec (selectedIndex st) 0) as [Hle|Hgt].
  - split; [reflexivity | split; [lia | split; [lia|]]].
    intros H0. apply ArrowUp_after_ArrowDown; [exact Hs | lia].
  - split; [lia | split; [reflexivity | split; [lia|]]].
    intros H0. apply ArrowUp_after_ArrowDown; [exact Hs | lia].
Qed.

(** C3. In every state, whatever the input text, the suggestion list
    (the empty one too) and the selected index, the Escape key leaves the
    suggestion box closed, that is hidden, and the selected index as it
    was.  Over a non-empty list the key clears [showSuggestions]; over the
    empty list the handler returns at once and the box is hidden because
    the template shows it for a non-empty list only. *)
Theorem Escape_closes (st : state) :
  closed (press (js "Escape") st) /\
  selectedIndex (press (js "Escape") st) = selectedIndex st /\
  packageName (press (js "Escape") st) = packageName st /\
  (suggestions st <> [] -> showSuggestions (press (js "Escape") st) = false).
Proof.
  rewrite press_Escape. unfold closed, suggestions_visible.
  destruct (Z.eqb_spec (suggestions_length st) 0) as [H0|H0].
  - repeat split.
    + rewrite H0. apply andb_false_r.
    + intros Hs. now apply suggestions_length_0 in H0.
  - repeat split.
Qed.

(** C4, amended. Over a non-empty suggestion list of length N, every press
    of the Down arrow moves a selected index i of the open state to
    (i + 1) mod N; from an index between 0 and N - 1, N presses lead back
    to the state they started from; from -1, the index of no selection,
    they lead to N - 1. *)
Theorem ArrowDown_cycle (st : state) :
  suggestions st <> [] ->
  -1 <= selectedIndex st < suggestions_length st ->
  selectedIndex (press (js "ArrowDown") st)
    = (selectedIndex st + 1) mod suggestions_length st /\
  (0 <= selectedIndex st ->
   presses (length (suggestions st)) (js "ArrowDown") st = st) /\
  (selectedIndex st = -1 ->
   selectedIndex (presses (length (suggestions st)) (js "ArrowDown") st)
     = suggestions_length st - 1).
Proof.
  intros Hs Hi. pose proof (suggestions_length_pos st Hs) as Hn.
  split; [|split].
  - rewrite press_ArrowDown by exact Hs.
    rewrite Z.rem_mod_nonneg by lia. reflexivity.
  - intros H0. unfold suggestions_length in *.
    destruct (length (suggestions st)) as [|k] eqn:Hk; [simpl in Hn; lia|].
    rewrite presses_ArrowDown by (exact Hs || lia).
    unfold suggestions_length. rewrite Hk.
    replace (selectedIndex st + Z.of_nat (S k))
      with (selectedIndex st + 1 * Z.of_nat (S k)) by lia.
    rewrite Z_mod_plus_full, Z.mod_small by lia.
    apply set_selectedIndex_same.
  - intros H1. unfold suggestions_length in *.
    destruct (length (suggestions st)) as [|k] eqn:Hk; [simpl in Hn; lia|].
    rewrite presses_ArrowDown by (exact Hs || lia).
    unfold suggestions_length. rewrite Hk, H1.
    cbn [selectedIndex set_selectedIndex].
    rewrite Z.mod_small by lia. lia.
Qed.

(** C10. Over a non-empty suggestion list, the Enter key with the selected
    index -1 changes nothing: the input text, the selected index and the
    open or closed state stay as they are, and the key keeps its default
    action.  The handler commits a suggestion and closes the box only
    when the selected index is at least 0. *)
Theorem Enter_without_selection (st : state) :
  suggestions st <> [] ->
  (selectedIndex st = -1 ->
   handleKeydown (mkKeyboardEvent (js "Enter") false) st
     = (mkKeyboardEvent (js "Enter") false, st)) /\
  (press (js "Enter") st <> st -> 0 <= selectedIndex st) /\
  (0 <= selectedIndex st ->
   packageName (press (js "Enter") st)
     = array_get (suggestions st) (selectedIndex st) /\
   showSuggestions (press (js "Enter") st) = false /\
   closed (press (js "Enter") st)).
Proof.
  intros Hs. pose proof (suggestions_length_pos st Hs) as Hn.
  split; [|split].
  - intros Hi. unfold handleKeydown; cbn [key]; key_tests.
    destruct (Z.eqb_spec (suggestions_length st) 0); [lia|].
    rewrite Hi. reflexivity.
  - rewrite press_Enter by exact Hs.
    destruct (Z.leb_spec 0 (selectedIndex st)); [lia | congruence].
  - intros Hi. rewrite press_Enter by exact Hs.
    destruct (Z.leb_spec 0 (selectedIndex st)); [|lia].
    repeat split.
Qed.

End Navigation.

(** ** Commands *)

(** C5. For every mirror and every non-empty package name the generated
    command is the text pip install -i, a space, the mirror's URL, a space
    and the package name; for the empty package name it is the empty
    string, whatever the mirror. *)
Theorem generateCommand_text (m : Mirror) (p : jsstring) (st : state) :
  packageName st = Some p ->
  (p <> [] -> generateCommand m st = js "pip install -i " ++ url m ++ js " " ++ p)
  /\ (p = [] -> generateCommand m st = []).
Proof.
  intros Hp. unfold generateCommand. rewrite Hp. split.
  - intros Hne. apply falsy_string_false in Hne as ->. reflexivity.
  - intros ->. reflexivity.
Qed.

(** ** The history *)

Lemma getItem_setItem (k v : jsstring) (st : state) :
  getItem k (setItem k v st) = Some v.
Proof. unfold getItem, setItem; simpl. apply lookup_insert_eq. Qed.

(** C6. For every history and every package name p: when p is in the
    history already, adding it leaves the state, and so the history, as it
    was (no second copy, no reordering); when p is not empty and not in the
    history, adding it gives the history p followed by the old entries, and
    stores that list. *)
Theorem savePackage_history (p : jsstring) (st : state) :
  (p ∈ usedPackages st -> savePackage (Some p) st = st) /\
  (p <> [] -> p ∉ usedPackages st ->
   usedPackages (savePackage (Some p) st) = p :: usedPackages st /\
   getItem (js "usedPackages") (savePackage (Some p) st)
     = Some (JSON.stringify (p :: usedPackages st))).
Proof.
  unfold savePackage. split.
  - intros Hin. apply Array_includes_true in Hin as ->.
    now rewrite orb_true_r.
  - intros Hne Hnin.
    apply falsy_string_false in Hne as ->.
    apply Array_includes_false in Hnin as ->.
    cbn [orb]. split; [reflexivity | apply getItem_setItem].
Qed.

(** A copy that succeeds adds the current package name in this way. *)
Lemma copy_success_adds (text : jsstring) (st : state) :
  usedPackages (copyToClipboard text Fulfilled st)
    = usedPackages (savePackage (packageName st) st) /\
  showCopyMessage (copyToClipboard text Fulfilled st) = true /\
  timers (copyToClipboard text Fulfilled st) = timers st ++ [(HideCopyMessage, 2000)].
Proof.
  unfold copyToClipboard, savePackage. cbn [packageName set_clipboard usedPackages].
  destruct (packageName st) as [p|]; [|repeat split].
  destruct (falsy_string p || Array_includes (usedPackages st) p); repeat split.
Qed.

(** C7. For every history and every package name p, deleting p leaves the
    entries other than p, in their order, so every occurrence of p is gone;
    when p is not in the history, the history stays as it was. *)
Theorem deletePackage_history (p : jsstring) (st : state) :
  ordered_selection (fun x => x <> p) (usedPackages st)
    (usedPackages (deletePackage p st)) /\
  (p ∉ usedPackages (deletePackage p st)) /\
  (p ∉ usedPackages st -> usedPackages (deletePackage p st) = usedPackages st).
Proof.
  assert (ordered_selection (fun x => x <> p) (usedPackages st)
            (usedPackages (deletePackage p st))) as Hsel.
  { unfold deletePackage. cbn [usedPackages setItem set_usedPackages].
    apply filter_ordered_selection. intros x.
    rewrite negb_true_iff. apply strict_eq_false. }
  split; [exact Hsel | split].
  - intros Hin. eapply ordered_selection_elem_of in Hin; [|exact Hsel].
    now destruct Hin as [_ Hne].
  - intros Hnin. eapply ordered_selection_unique; [exact Hsel|].
    clear Hsel. induction (usedPackages st) as [|x l IH]; [constructor|].
    apply not_elem_of_cons in Hnin as [Hne Hnin].
    apply selection_keep; [congruence | now apply IH].
Qed.

(** ** The clipboard *)

(** C8. When the clipboard write fails, the state is as it was: the history
    is not changed, nothing is written to the storage, the flag of the
    success message is not set, no timer is started, and the page shows
    nothing new.  The one trace of the failure is a line on the console. *)
Theorem copy_failure_silent (text err : jsstring) (st : state) :
  let st' := copyToClipboard text (Rejected err) st in
  usedPackages st' = usedPackages st /\
  localStorage st' = localStorage st /\
  showCopyMessage st' = showCopyMessage st /\
  timers st' = timers st /\
  packageName st' = packageName st /\
  showSuggestions st' = showSuggestions st /\
  selectedIndex st' = selectedIndex st /\
  isDarkMode st' = isDarkMode st /\
  body_dark_mode st' = body_dark_mode st /\
  clipboard st' = clipboard st /\
  console st' = console st ++ [(js "Failed to copy text: ", err)].
Proof. repeat split. Qed.

(** ** The theme *)

Lemma toggleTheme_stores (st : state) :
  isDarkMode (toggleTheme st) = negb (isDarkMode st) /\
  getItem (js "darkMode") (toggleTheme st)
    = Some (String_of_bool (negb (isDarkMode st))) /\
  body_dark_mode (toggleTheme st) = negb (isDarkMode st).
Proof.
  unfold toggleTheme, applyTheme.
  cbn [isDarkMode set_isDarkMode setItem set_body_dark_mode body_dark_mode].
  repeat split. apply lookup_insert_eq.
Qed.

(** C9, amended. For every state, two toggles of the theme restore the
    boolean; after a single toggle the value stored under darkMode is the
    literal true or false that matches the boolean, and after two toggles it
    is the literal that matches the first boolean.  So two toggles restore
    the stored value, and the whole storage, when the stored value was the
    literal of the boolean to begin with, as it is after any toggle. *)
Theorem toggleTheme_twice (st : state) :
  isDarkMode (toggleTheme (toggleTheme st)) = isDarkMode st /\
  getItem (js "darkMode") (toggleTheme st)
    = Some (String_of_bool (isDarkMode (toggleTheme st))) /\
  getItem (js "darkMode") (toggleTheme (toggleTheme st))
    = Some (String_of_bool (isDarkMode st)) /\
  (getItem (js "darkMode") st = Some (String_of_bool (isDarkMode st)) ->
   localStorage (toggleTheme (toggleTheme st)) = localStorage st).
Proof.
  destruct (toggleTheme_stores st) as (Hb & Hs & _).
  destruct (toggleTheme_stores (toggleTheme st)) as (Hb2 & Hs2 & _).
  rewrite Hb, negb_involutive in Hb2, Hs2.
  split; [exact Hb2 | split; [|split; [exact Hs2|]]].
  - rewrite Hs, Hb. reflexivity.
  - intros Hstored. unfold toggleTheme, applyTheme.
    cbn [isDarkMode set_isDarkMode setItem set_body_dark_mode localStorage].
    rewrite negb_involutive, insert_insert_eq.
    now apply insert_id.
Qed.

(** ** Loading the history *)

(** A text written by [JSON.stringify] is not the empty string. *)
Lemma stringify_truthy (a : list jsstring) : falsy_string (JSON.stringify a) = false.
Proof. reflexivity. Qed.

Lemma as_string_array_strings (a : list jsstring) :
  JSON.as_string_array (JSON.JArray (JSON.JString <$> a)) = Some a.
Proof.
  cbn [JSON.as_string_array]. induction a as [|x a IH]; [reflexivity|].
  cbn. rewrite IH. reflexivity.
Qed.

(** C2, amended. When nothing is stored under usedPackages (or the empty
    string is), loading does not fail: the history becomes the default list
    pandas, numpy, requests, pillow, flask, which is stored.  When a
    non-empty text is stored that [JSON.parse] reads as an array of strings,
    loading does not fail and the history becomes that array; this is so for
    every text the component itself stored.  No more is promised: the
    handler calls [JSON.parse] outside of any [try]. *)
Theorem loadUsedPackages_history (st : state) :
  ((getItem (js "usedPackages") st = None \/
    getItem (js "usedPackages") st = Some []) ->
   loadUsedPackages st
     = Normal (setItem (js "usedPackages") (JSON.stringify defaultPackages)
                 (set_usedPackages defaultPackages st))) /\
  (forall stored a,
     getItem (js "usedPackages") st = Some stored -> stored <> [] ->
     JSON.parse stored = Some (JSON.JArray (JSON.JString <$> a)) ->
     loadUsedPackages st = Normal (set_usedPackages a st)) /\
  (forall a,
     getItem (js "usedPackages") st = Some (JSON.stringify a) ->
     loadUsedPackages st = Normal (set_usedPackages a st)).
Proof.
  unfold loadUsedPackages. split; [|split].
  - intros [-> | ->]; reflexivity.
  - intros stored a -> Hne ->.
    apply falsy_string_false in Hne as ->.
    now rewrite as_string_array_strings.
  - intros a ->.
    now rewrite stringify_truthy, JSONFacts.parse_stringify, as_string_array_strings.
Qed.

(** The handlers that change the history keep the storage a copy of it, and
    a later visit loads that history. *)
Lemma savePackage_stored (pkg : option jsstring) (st : state) :
  history_stored st -> history_stored (savePackage pkg st).
Proof.
  intros Hst. unfold savePackage. destruct pkg as [p|]; [|exact Hst].
  destruct (falsy_string p || Array_includes (usedPackages st) p); [exact Hst|].
  apply getItem_setItem.
Qed.

Lemma deletePackage_stored (pkg : jsstring) (st : state) :
  history_stored (deletePackage pkg st).
Proof. apply getItem_setItem. Qed.

(** What the component stored is the history of the next visit. *)
Theorem history_survives_reload (st : state) :
  history_stored st ->
  loadUsedPackages (initial (localStorage st))
  = Normal (set_usedPackages (usedPackages st) (initial (localStorage st))).
Proof.
  intros Hst. unfold history_stored, getItem in Hst.
  unfold loadUsedPackages, getItem. cbn [localStorage initial].
  now rewrite Hst, stringify_truthy, JSONFacts.parse_stringify,
    as_string_array_strings.
Qed.

Lemma loadUsedPackages_stored (st : state) :
  history_stored st -> loadUsedPackages st = Normal st.
Proof.
  intros Hst. unfold history_stored in Hst. unfold loadUsedPackages.
  rewrite Hst, stringify_truthy, JSONFacts.parse_stringify, as_string_array_strings.
  destruct st; reflexivity.
Qed.

(** ** The keyboard handler on every key *)

Section KeyboardFacts.

Context `{StringRuntime}.

(** Splits the goal along the tests of the handler. *)
Ltac handler_cases :=
  repeat match goal with
    | |- context [if ?b then _ else _] => destruct b eqn:?
    end.

(** What a key press keeps, whatever the key is. *)
Lemma press_keeps (k : jsstring) (st : state) :
  usedPackages (press k st) = usedPackages st /\
  localStorage (press k st) = localStorage st /\
  isDarkMode (press k st) = isDarkMode st /\
  body_dark_mode (press k st) = body_dark_mode st /\
  showCopyMessage (press k st) = showCopyMessage st /\
  clipboard (press k st) = clipboard st /\
  timers (press k st) = timers st /\
  console (press k st) = console st.
Proof. unfold press, handleKeydown. cbn [key]. handler_cases; repeat split. Qed.

(** A key press never touches the history, the storage, the theme, the
    success message, the clipboard, the timers or the console, whatever the
    key is; it leaves the input text as it is unless the key is Enter over
    a selected suggestion, and the whole state, with the default action of
    the key, when there is no suggestion. *)
Theorem keydown_frame (k : jsstring) (st : state) :
  (usedPackages (press k st) = usedPackages st /\
   localStorage (press k st) = localStorage st /\
   isDarkMode (press k st) = isDarkMode st /\
   body_dark_mode (press k st) = body_dark_mode st /\
   showCopyMessage (press k st) = showCopyMessage st /\
   clipboard (press k st) = clipboard st /\
   timers (press k st) = timers st /\
   console (press k st) = console st) /\
  (packageName (press k st) <> packageName st ->
   k = js "Enter" /\ 0 <= selectedIndex st /\ suggestions st <> []) /\
  (suggestions st = [] ->
   handleKeydown (mkKeyboardEvent k false) st = (mkKeyboardEvent k false, st)).
Proof.
  split; [exact (press_keeps k st) | split].
  - unfold press, handleKeydown. cbn [key].
    destruct (Z.eqb_spec (suggestions_length st) 0) as [H0|H0];
      [cbn; congruence|].
    destruct (strict_eq k (js "ArrowDown")); [cbn; congruence|].
    destruct (strict_eq k (js "ArrowUp")); [cbn; congruence|].
    destruct (strict_eq k (js "Enter")) eqn:Hk.
    + apply strict_eq_true in Hk.
      destruct (Z.leb_spec 0 (selectedIndex st)); [|cbn; congruence].
      intros _. split; [exact Hk | split; [assumption|]].
      intros Hs. apply suggestions_length_0 in Hs. contradiction.
    + destruct (strict_eq k (js "Escape")); cbn; congruence.
  - intros Hs. apply suggestions_length_0 in Hs.
    unfold handleKeydown. rewrite Hs. reflexivity.
Qed.

(** The selected index never falls below -1. *)
Lemma press_index_lower (k : jsstring) (st : state) :
  -1 <= selectedIndex st -> -1 <= selectedIndex (press k st).
Proof.
  intros Hi. unfold press, handleKeydown. cbn [key].
  destruct (Z.eqb_spec (suggestions_length st) 0) as [H0|H0]; [exact Hi|].
  assert (0 < suggestions_length st) as Hn by (unfold suggestions_length in *; lia).
  destruct (strict_eq k (js "ArrowDown")).
  { cbn [snd selectedIndex set_selectedIndex].
    rewrite Z.rem_mod_nonneg by lia.
    pose proof (Z.mod_pos_bound (selectedIndex st + 1) (suggestions_length st) Hn).
    lia. }
  destruct (strict_eq k (js "ArrowUp")).
  { cbn [snd selectedIndex set_selectedIndex].
    destruct (Z.leb_spec (selectedIndex st) 0); lia. }
  handler_cases; exact Hi.
Qed.

(** The handler calls [preventDefault] exactly when there is a suggestion
    and the key is the Down arrow, the Up arrow, or Enter over a selected
    index that is at least 0; the Escape key keeps its default action. *)
Theorem preventDefault_exactly (k : jsstring) (st : state) :
  defaultPrevented (fst (handleKeydown (mkKeyboardEvent k false) st)) = true
  <-> suggestions st <> [] /\
      (k = js "ArrowDown" \/ k = js "ArrowUp" \/
       (k = js "Enter" /\ 0 <= selectedIndex st)).
Proof.
  unfold handleKeydown. cbn [key]. split.
  - destruct (Z.eqb_spec (suggestions_length st) 0) as [H0|H0];
      [cbn; discriminate|].
    assert (suggestions st <> []) as Hs
      by (intros Hs; apply suggestions_length_0 in Hs; contradiction).
    destruct (strict_eq k (js "ArrowDown")) eqn:Hd.
    { apply strict_eq_true in Hd. auto. }
    destruct (strict_eq k (js "ArrowUp")) eqn:Hu.
    { apply strict_eq_true in Hu. auto. }
    destruct (strict_eq k (js "Enter")) eqn:He.
    { apply strict_eq_true in He.
      destruct (Z.leb_spec 0 (selectedIndex st)); [auto | cbn; discriminate]. }
    destruct (strict_eq k (js "Escape")); cbn; discriminate.
  - intros [Hs Hk]. apply suggestions_length_pos in Hs.
    destruct (Z.eqb_spec (suggestions_length st) 0); [lia|].
    destruct Hk as [-> | [-> | [-> Hi]]]; key_tests; try reflexivity.
    destruct (Z.leb_spec 0 (selectedIndex st)); [reflexivity | lia].
Qed.

(** Every suggestion is an entry of the history that contains the text and
    differs from it. *)
Lemma elem_of_suggestions (st : state) (s : jsstring) :
  s ∈ suggestions st ->
  s ∈ usedPackages st /\
  exists text, packageName st = Some text /\ text <> [] /\
               contains_ignoring_case text s /\ s <> text.
Proof.
  unfold suggestions. destruct (packageName st) as [text|];
    [|intros Hin; inversion Hin].
  destruct (decide (text = [])) as [->|Hne]; [intros Hin; inversion Hin|].
  intros Hin.
  eapply ordered_selection_elem_of in Hin;
    [|exact (suggestions_nonempty_text text (usedPackages st) Hne)].
  destruct Hin as (Hh & Hc & Hd). split; [exact Hh|].
  exists text. auto.
Qed.

(** Enter over the selected suggestion does what a click on that suggestion
    does; the text it commits is an entry of the history that contains the
    old text, without regard to case, and differs from it. *)
Theorem Enter_is_click (st : state) (s : jsstring) :
  0 <= selectedIndex st ->
  suggestions st !! Z.to_nat (selectedIndex st) = Some s ->
  press (js "Enter") st = selectSuggestion s st /\
  s ∈ usedPackages st /\
  exists text, packageName st = Some text /\
               contains_ignoring_case text s /\ s <> text.
Proof.
  intros Hi Hs.
  assert (s ∈ suggestions st) as Hin by (eapply list_elem_of_lookup_2; exact Hs).
  assert (suggestions st <> []) as Hne
    by (intros Hnil; rewrite Hnil in Hin; inversion Hin).
  split.
  - rewrite press_Enter by exact Hne.
    destruct (Z.leb_spec 0 (selectedIndex st)); [|lia].
    unfold array_get. destruct (Z.ltb_spec (selectedIndex st) 0); [lia|].
    rewrite Hs. reflexivity.
  - apply elem_of_suggestions in Hin as (Hh & text & Ht & _ & Hc & Hd).
    split; [exact Hh | exists text; auto].
Qed.

(** The selected index can be past the end of the suggestion list (the list
    shrinks when an entry is deleted, the index stays).  Enter then stores
    [undefined] as the input text: the box closes, and after that there is
    no suggestion and no command block, the generated command is empty and
    a copy adds nothing to the history. *)
Theorem Enter_past_end (st : state) :
  suggestions st <> [] ->
  suggestions_length st <= selectedIndex st ->
  let st' := press (js "Enter") st in
  packageName st' = None /\
  showSuggestions st' = false /\
  suggestions st' = [] /\
  code_blocks st' = [] /\
  (forall mirror, generateCommand mirror st' = []) /\
  (forall text, usedPackages (copyToClipboard text Fulfilled st') = usedPackages st).
Proof.
  intros Hne Hi st'. pose proof (suggestions_length_pos st Hne) as Hn.
  assert (st' = set_showSuggestions false (set_packageName None st)) as ->.
  { unfold st'. rewrite press_Enter by exact Hne.
    destruct (Z.leb_spec 0 (selectedIndex st)); [|lia].
    unfold array_get. destruct (Z.ltb_spec (selectedIndex st) 0); [lia|].
    rewrite lookup_ge_None_2; [reflexivity|].
    unfold suggestions_length in Hi. lia. }
  repeat split.
Qed.

(** Typing, then the Down arrow, then Enter commits the first suggestion:
    the input text becomes the first entry of the history that matches what
    was typed, and the box closes.  The history is as before. *)
Theorem type_ArrowDown_Enter (text first : jsstring) (rest : list jsstring)
    (st : state) :
  suggestions (input text st) = first :: rest ->
  let st' := press (js "Enter") (press (js "ArrowDown") (input text st)) in
  open (input text st) /\
  selectedIndex (input text st) = -1 /\
  packageName st' = Some first /\
  closed st' /\
  usedPackages st' = usedPackages st.
Proof.
  intros Hs st'.
  assert (suggestions (input text st) <> []) as Hne by (rewrite Hs; discriminate).
  pose proof (suggestions_length_pos _ Hne) as Hn.
  split; [|split; [reflexivity|]].
  - unfold open, suggestions_visible. cbn [showSuggestions input handleInput
      set_showSuggestions andb].
    destruct (Z.eqb_spec (suggestions_length (input text st)) 0); [lia | reflexivity].
  - unfold st'. rewrite press_ArrowDown by exact Hne.
    change (selectedIndex (input text st) + 1) with 0.
    rewrite Z.rem_0_l by lia.
    rewrite press_Enter by exact Hne.
    change (suggestions (set_selectedIndex 0 (input text st)))
      with (suggestions (input text st)).
    rewrite Hs. repeat split.
Qed.

(** [k] presses of the Up arrow, [k] at least one, from an index inside a
    list of [n] suggestions. *)
Lemma presses_ArrowUp (k : nat) (st : state) :
  suggestions st <> [] -> 0 <= selectedIndex st < suggestions_length st ->
  presses (S k) (js "ArrowUp") st =
  set_selectedIndex
    ((selectedIndex st - Z.of_nat (S k)) mod suggestions_length st) st.
Proof.
  intros Hs Hi. pose proof (suggestions_length_pos st Hs) as Hn.
  assert (forall j st0, suggestions st0 <> [] ->
            suggestions_length st0 = suggestions_length st ->
            0 <= j < suggestions_length st ->
            (if j <=? 0 then suggestions_length st0 - 1 else j - 1)
            = (j - 1) mod suggestions_length st) as Hstep.
  { intros j st0 _ Hl Hj. rewrite Hl.
    destruct (Z.leb_spec j 0).
    - replace j with 0 by lia. change (0 - 1) with (-1).
      rewrite <- (Z_mod_plus_full (-1) 1 (suggestions_length st)).
      rewrite Z.mod_small by lia. lia.
    - symmetry. apply Z.mod_small. lia. }
  unfold presses. induction k as [|k IH].
  - simpl Nat.iter. rewrite press_ArrowUp by exact Hs.
    f_equal. rewrite (Hstep _ st) by (assumption || reflexivity).
    reflexivity.
  - rewrite Nat.iter_succ, IH.
    set (j := (selectedIndex st - Z.of_nat (S k)) mod suggestions_length st).
    assert (0 <= j < suggestions_length st) as Hj
      by (apply Z.mod_pos_bound; lia).
    rewrite press_ArrowUp by exact Hs.
    change (suggestions_length (set_selectedIndex j st)) with (suggestions_length st).
    change (selectedIndex (set_selectedIndex j st)) with j.
    rewrite set_selectedIndex_twice. f_equal.
    rewrite (Hstep j st) by (assumption || reflexivity).
    unfold j. rewrite Zminus_mod_idemp_l. f_equal. lia.
Qed.

(** Over a non-empty suggestion list of length N, N presses of the Up arrow
    from an index between 0 and N - 1 lead back to the state they started
    from, and the Down arrow undoes the Up arrow; from -1, the index of no
    selection, N presses of the Up arrow lead to 0. *)
Theorem ArrowUp_cycle (st : state) :
  suggestions st <> [] ->
  -1 <= selectedIndex st < suggestions_length st ->
  (0 <= selectedIndex st ->
   presses (length (suggestions st)) (js "ArrowUp") st = st /\
   press (js "ArrowDown") (press (js "ArrowUp") st) = st) /\
  (selectedIndex st = -1 ->
   selectedIndex (presses (length (suggestions st)) (js "ArrowUp") st) = 0).
Proof.
  intros Hs Hi. pose proof (suggestions_length_pos st Hs) as Hn.
  split.
  - intros H0. split.
    + unfold suggestions_length in *.
      destruct (length (suggestions st)) as [|k] eqn:Hk; [simpl in Hn; lia|].
      rewrite presses_ArrowUp by (exact Hs || unfold suggestions_length; lia).
      unfold suggestions_length. rewrite Hk.
      replace (selectedIndex st - Z.of_nat (S k))
        with (selectedIndex st + (-1) * Z.of_nat (S k)) by lia.
      rewrite Z_mod_plus_full, Z.mod_small by lia.
      apply set_selectedIndex_same.
    + rewrite press_ArrowUp by exact Hs.
      set (j := if selectedIndex st <=? 0 then suggestions_length st - 1
                else selectedIndex st - 1).
      rewrite press_ArrowDown by exact Hs.
      change (suggestions_length (set_selectedIndex j st)) with (suggestions_length st).
      change (selectedIndex (set_selectedIndex j st)) with j.
      rewrite set_selectedIndex_twice.
      replace (Z.rem (j + 1) (suggestions_length st)) with (selectedIndex st);
        [apply set_selectedIndex_same|].
      unfold j. destruct (Z.leb_spec (selectedIndex st) 0).
      * replace (suggestions_length st - 1 + 1) with (suggestions_length st) by lia.
        rewrite Z.rem_same by lia. lia.
      * replace (selectedIndex st - 1 + 1) with (selectedIndex st) by lia.
        rewrite Z.rem_small by lia. reflexivity.
  - intros H1. unfold presses.
    destruct (length (suggestions st)) as [|k] eqn:Hk;
      [unfold suggestions_length in Hn; rewrite Hk in Hn; simpl in Hn; lia|].
    rewrite Nat.iter_succ_r.
    rewrite (press_ArrowUp st) by exact Hs.
    rewrite H1. cbn [Z.leb Z.compare].
    set (st1 := set_selectedIndex (suggestions_length st - 1) st).
    assert (suggestions_length st = Z.of_nat (S k)) as Hl
      by (unfold suggestions_length; rewrite Hk; reflexivity).
    destruct k as [|k]; [simpl; unfold st1; cbn; lia|].
    change (Nat.iter (S k) (press (js "ArrowUp")) st1)
      with (presses (S k) (js "ArrowUp") st1).
    rewrite presses_ArrowUp.
    + change (suggestions_length st1) with (suggestions_length st).
      cbn [selectedIndex set_selectedIndex st1].
      rewrite Hl. replace (Z.of_nat (S (S k)) - 1 - Z.of_nat (S k)) with 0 by lia.
      apply Z.mod_0_l. lia.
    + exact Hs.
    + change (suggestions_length st1) with (suggestions_length st).
      cbn [selectedIndex set_selectedIndex st1]. lia.
Qed.

End KeyboardFacts.

(** ** Sessions *)

Lemma storage_keys_differ : js "darkMode" <> js "usedPackages".
Proof. discriminate. Qed.

Lemma filter_NoDup {A} (f : A -> bool) (l : list A) :
  NoDup l -> NoDup (List.filter f l).
Proof.
  apply (ordered_selection_NoDup (fun x => f x = true)).
  apply filter_ordered_selection. intros x. reflexivity.
Qed.

Lemma filter_absent (p : jsstring) (l : list jsstring) :
  p ∉ l -> List.filter (fun x => negb (strict_eq x p)) l = l.
Proof.
  induction l as [|x l IH]; [reflexivity|].
  intros Hnin. apply not_elem_of_cons in Hnin as [Hne Hnin]. simpl.
  replace (strict_eq x p) with false
    by (symmetry; apply strict_eq_false; congruence).
  simpl. now rewrite IH.
Qed.

Lemma savePackage_NoDup (pkg : option jsstring) (st : state) :
  NoDup (usedPackages st) -> NoDup (usedPackages (savePackage pkg st)).
Proof.
  intros Hnd. unfold savePackage. destruct pkg as [p|]; [|exact Hnd].
  destruct (falsy_string p); [exact Hnd|].
  destruct (Array_includes (usedPackages st) p) eqn:Hin; [exact Hnd|].
  apply Array_includes_false in Hin. cbn. now apply NoDup_cons_2.
Qed.

Lemma savePackage_darkMode (pkg : option jsstring) (st : state) :
  getItem (js "darkMode") (savePackage pkg st) = getItem (js "darkMode") st /\
  isDarkMode (savePackage pkg st) = isDarkMode st /\
  body_dark_mode (savePackage pkg st) = body_dark_mode st /\
  selectedIndex (savePackage pkg st) = selectedIndex st.
Proof.
  unfold savePackage. destruct pkg as [p|]; [|repeat split].
  destruct (falsy_string p || Array_includes (usedPackages st) p);
    [repeat split|].
  repeat split. unfold getItem, setItem; cbn.
  apply lookup_insert_ne. intros Heq. now apply storage_keys_differ.
Qed.

Lemma fire_timer_keeps (st : state) :
  usedPackages (fire_timer st) = usedPackages st /\
  localStorage (fire_timer st) = localStorage st /\
  isDarkMode (fire_timer st) = isDarkMode st /\
  body_dark_mode (fire_timer st) = body_dark_mode st /\
  selectedIndex (fire_timer st) = selectedIndex st.
Proof.
  unfold fire_timer. destruct (timers st) as [|[[] d] rest]; repeat split.
Qed.

Section SessionFacts.

Context `{StringRuntime}.

(** What every event keeps, every session keeps. *)
Lemma session_keeps (P : state -> Prop) :
  (forall ev st, P st -> P (dispatch ev st)) ->
  forall evs st, P st -> P (session evs st).
Proof.
  intros Hstep evs. unfold session.
  induction evs as [|ev evs IH]; intros st HP; [exact HP|].
  simpl. apply IH, Hstep, HP.
Qed.

Lemma dispatch_NoDup (ev : event) (st : state) :
  NoDup (usedPackages st) -> NoDup (usedPackages (dispatch ev st)).
Proof.
  intros Hnd. destruct ev as [text|k|s|pkg|pkg|text [|err]| |]; cbn [dispatch];
    try exact Hnd.
  - destruct (press_keeps k st) as [-> _]. exact Hnd.
  - unfold deletePackage. cbn. now apply filter_NoDup.
  - destruct (copy_success_adds text st) as [-> _]. now apply savePackage_NoDup.
  - destruct (fire_timer_keeps st) as [-> _]. exact Hnd.
Qed.

(** No session puts an entry into the history twice: when the history has
    no duplicates, it has none after any sequence of events. *)
Theorem history_NoDup_session (evs : list event) (st : state) :
  NoDup (usedPackages st) -> NoDup (usedPackages (session evs st)).
Proof.
  apply (session_keeps (fun st => NoDup (usedPackages st))).
  intros ev st0. apply dispatch_NoDup.
Qed.

Lemma dispatch_history_stored (ev : event) (st : state) :
  history_stored st -> history_stored (dispatch ev st).
Proof.
  intros Hst. destruct ev as [text|k|s|pkg|pkg|text [|err]| |]; cbn [dispatch];
    try exact Hst.
  - unfold history_stored, getItem in *.
    destruct (press_keeps k st) as (-> & -> & _). exact Hst.
  - apply deletePackage_stored.
  - exact (savePackage_stored (packageName st) (set_clipboard (Some text) st) Hst).
  - unfold history_stored, getItem, toggleTheme, applyTheme; cbn.
    rewrite lookup_insert_ne by exact storage_keys_differ. exact Hst.
  - unfold history_stored, getItem in *.
    destruct (fire_timer_keeps st) as (-> & -> & _). exact Hst.
Qed.


(** After any session from a state whose storage is a copy of the history,
    the storage is a copy of the history: every handler that changes the
    history writes it through, and no other handler writes that key. *)
Theorem history_stored_session (evs : list event) (st : state) :
  history_stored st -> history_stored (session evs st).
Proof.
  apply (session_keeps history_stored).
  intros ev st0. apply dispatch_history_stored.
Qed.

Lemma dispatch_theme (ev : event) (st : state) :
  theme_stored st /\ body_dark_mode st = isDarkMode st ->
  theme_stored (dispatch ev st) /\
  body_dark_mode (dispatch ev st) = isDarkMode (dispatch ev st).
Proof.
  intros [Hth Hbody].
  destruct ev as [text|k|s|pkg|pkg|text [|err]| |]; cbn [dispatch];
    try (split; [exact Hth | exact Hbody]).
  - unfold theme_stored, getItem in *.
    destruct (press_keeps k st) as (_ & -> & -> & -> & _). auto.
  - unfold theme_stored, getItem, deletePackage, setItem in *; cbn.
    rewrite lookup_insert_ne
      by (intros Heq; now apply storage_keys_differ).
    auto.
  - destruct (savePackage_darkMode (packageName st) (set_clipboard (Some text) st))
      as (Hg & Hd & Hb & _).
    unfold theme_stored.
    change (getItem (js "darkMode") (copyToClipboard text Fulfilled st))
      with (getItem (js "darkMode")
              (savePackage (packageName st) (set_clipboard (Some text) st))).
    change (isDarkMode (copyToClipboard text Fulfilled st))
      with (isDarkMode (savePackage (packageName st) (set_clipboard (Some text) st))).
    change (body_dark_mode (copyToClipboard text Fulfilled st))
      with (body_dark_mode
              (savePackage (packageName st) (set_clipboard (Some text) st))).
    rewrite Hg, Hd, Hb. auto.
  - destruct (toggleTheme_stores st) as (Hd & Hg & Hb).
    unfold theme_stored. rewrite Hd, Hg, Hb. auto.
  - unfold theme_stored, getItem in *.
    destruct (fire_timer_keeps st) as (_ & -> & -> & -> & _). auto.
Qed.

(** After any session from a state where the storage agrees with the theme
    and the class of the document body is the theme, both still hold: the
    stored text is the literal of the boolean (or nothing is stored and the
    theme is light), and the body has the class dark-mode exactly in the
    dark theme. *)
Theorem theme_session (evs : list event) (st : state) :
  theme_stored st -> body_dark_mode st = isDarkMode st ->
  theme_stored (session evs st) /\
  body_dark_mode (session evs st) = isDarkMode (session evs st).
Proof.
  intros Hth Hbody.
  apply (session_keeps
           (fun st => theme_stored st /\ body_dark_mode st = isDarkMode st));
    [intros ev st0; apply dispatch_theme | auto].
Qed.

Lemma dispatch_index_lower (ev : event) (st : state) :
  -1 <= selectedIndex st -> -1 <= selectedIndex (dispatch ev st).
Proof.
  intros Hi. destruct ev as [text|k|s|pkg|pkg|text [|err]| |]; cbn [dispatch];
    try exact Hi.
  - cbn. lia.
  - now apply press_index_lower.
  - destruct (savePackage_darkMode (packageName st) (set_clipboard (Some text) st))
      as (_ & _ & _ & Hidx).
    change (selectedIndex (copyToClipboard text Fulfilled st))
      with (selectedIndex
              (savePackage (packageName st) (set_clipboard (Some text) st))).
    rewrite Hidx. exact Hi.
  - destruct (fire_timer_keeps st) as (_ & _ & _ & _ & ->). exact Hi.
Qed.

(** The selected index never falls below -1, the index of no selection, in
    any session; it can exceed the last index of the suggestion list. *)
Theorem index_lower_session (evs : list event) (st : state) :
  -1 <= selectedIndex st -> -1 <= selectedIndex (session evs st).
Proof.
  apply (session_keeps (fun st => -1 <= selectedIndex st)).
  intros ev st0. apply dispatch_index_lower.
Qed.

End SessionFacts.

(** ** The next visit *)

Lemma String_of_bool_true (b : bool) : strict_eq (String_of_bool b) (js "true") = b.
Proof. destruct b; reflexivity. Qed.

(** What the mount hook restores on the next visit: when the storage is a
    copy of the history and agrees with the theme, mounting the component
    over that storage does not fail and gives the same history and the same
    theme, with the class of the body set from it; the input text, the
    selection and the messages start afresh and the storage is as it was. *)
Theorem onMounted_restores (st : state) :
  history_stored st -> theme_stored st ->
  onMounted (initial (localStorage st))
  = Normal (mkState (Some []) false (usedPackages st) (isDarkMode st) false (-1)
              (localStorage st) (isDarkMode st) None [] []).
Proof.
  intros Hh Ht. unfold history_stored, getItem in Hh.
  unfold onMounted, loadUsedPackages, getItem. cbn [localStorage initial].
  rewrite Hh, stringify_truthy, JSONFacts.parse_stringify, as_string_array_strings.
  unfold loadThemePreference, applyTheme, getItem.
  cbn [localStorage set_usedPackages initial set_isDarkMode isDarkMode
       set_body_dark_mode packageName showCopyMessage usedPackages showSuggestions
       selectedIndex body_dark_mode clipboard timers console].
  destruct Ht as [Ht | [Ht Hlight]]; unfold getItem in Ht; rewrite Ht.
  - rewrite String_of_bool_true. reflexivity.
  - rewrite Hlight. reflexivity.
Qed.

(** The theme that is loaded is the dark one exactly when the text stored
    under darkMode is the literal true: a missing key and any other text
    give the light theme.  The body gets the class of the loaded theme, and
    the history and the storage are not touched. *)
Theorem loadThemePreference_exactly (st : state) :
  (isDarkMode (loadThemePreference st) = true
   <-> getItem (js "darkMode") st = Some (js "true")) /\
  body_dark_mode (loadThemePreference st) = isDarkMode (loadThemePreference st) /\
  usedPackages (loadThemePreference st) = usedPackages st /\
  localStorage (loadThemePreference st) = localStorage st.
Proof.
  unfold loadThemePreference, applyTheme.
  cbn [isDarkMode set_isDarkMode set_body_dark_mode body_dark_mode usedPackages
       localStorage].
  split; [|repeat split].
  destruct (getItem (js "darkMode") st) as [s|].
  - rewrite strict_eq_true. split; congruence.
  - split; discriminate.
Qed.

(** The mount hook throws exactly when the text stored under usedPackages
    is not empty and is no JSON text; the exception is the SyntaxError of
    [JSON.parse], and the theme preference is then not loaded. *)
Theorem onMounted_throws_exactly (st : state) (e : exn) :
  onMounted st = Throw e
  <-> exists stored,
        getItem (js "usedPackages") st = Some stored /\ stored <> [] /\
        JSON.parse stored = None.
Proof.
  unfold onMounted, loadUsedPackages. split.
  - destruct (getItem (js "usedPackages") st) as [stored|]; [|discriminate].
    destruct (falsy_string stored) eqn:Hf; [discriminate|].
    apply falsy_string_false in Hf.
    destruct (JSON.parse stored) as [v|] eqn:Hp.
    + destruct (JSON.as_string_array v); discriminate.
    + intros _. exists stored. auto.
  - intros (stored & -> & Hne & ->).
    apply falsy_string_false in Hne as ->. destruct e. reflexivity.
Qed.

(** ** Saving and deleting together *)

Lemma filter_twice {A} (f : A -> bool) (l : list A) :
  List.filter f (List.filter f l) = List.filter f l.
Proof.
  induction l as [|x l IH]; [reflexivity|]. simpl.
  destruct (f x) eqn:Hx; [|exact IH]. simpl. rewrite Hx. now rewrite IH.
Qed.

Lemma filter_swap {A} (f g : A -> bool) (l : list A) :
  List.filter f (List.filter g l) = List.filter g (List.filter f l).
Proof.
  induction l as [|x l IH]; [reflexivity|]. simpl.
  destruct (f x) eqn:Hf, (g x) eqn:Hg; simpl; rewrite ?Hf, ?Hg, IH; reflexivity.
Qed.

(** Deleting an entry that was just added gives back the old history, and
    the old state when the storage was a copy of the history. *)
Theorem deletePackage_undoes_savePackage (p : jsstring) (st : state) :
  p <> [] -> p ∉ usedPackages st ->
  usedPackages (deletePackage p (savePackage (Some p) st)) = usedPackages st /\
  (history_stored st -> deletePackage p (savePackage (Some p) st) = st).
Proof.
  intros Hne Hnin.
  assert (usedPackages (deletePackage p (savePackage (Some p) st)) = usedPackages st)
    as Hh.
  { unfold savePackage.
    apply falsy_string_false in Hne as ->.
    pose proof Hnin as Hinc. apply Array_includes_false in Hinc as ->.
    unfold deletePackage. cbn. rewrite strict_eq_refl. cbn.
    now apply filter_absent. }
  split; [exact Hh|].
  intros Hst. unfold history_stored, getItem in Hst.
  revert Hh. unfold savePackage.
  apply falsy_string_false in Hne as ->.
  apply Array_includes_false in Hnin as ->.
  unfold deletePackage, setItem, set_usedPackages. cbn. intros ->.
  rewrite insert_insert_eq, insert_id by exact Hst.
  destruct st; reflexivity.
Qed.

(** Deleting the same entry twice is deleting it once, the order of two
    deletions does not matter, and adding the same entry twice is adding it
    once. *)
Theorem history_updates_compose (p q : jsstring) (pkg : option jsstring)
    (st : state) :
  deletePackage p (deletePackage p st) = deletePackage p st /\
  deletePackage p (deletePackage q st) = deletePackage q (deletePackage p st) /\
  savePackage pkg (savePackage pkg st) = savePackage pkg st.
Proof.
  split; [|split].
  - unfold deletePackage, setItem, set_usedPackages. cbn.
    now rewrite filter_twice, insert_insert_eq.
  - unfold deletePackage, setItem, set_usedPackages. cbn.
    rewrite !insert_insert_eq.
    now rewrite (filter_swap (fun x => negb (strict_eq x p))
                   (fun x => negb (strict_eq x q))).
  - unfold savePackage. destruct pkg as [r|]; [|reflexivity].
    destruct (falsy_string r) eqn:Hf; cbn [orb]; [reflexivity|].
    destruct (Array_includes (usedPackages st) r) eqn:Hin; [now rewrite Hin|].
    cbn [usedPackages setItem set_usedPackages].
    replace (Array_includes (r :: usedPackages st) r) with true; [reflexivity|].
    symmetry. apply Array_includes_true. apply elem_of_cons; left; reflexivity.
Qed.

(** ** Copying a command *)

Lemma savePackage_keeps_text (pkg : option jsstring) (st : state) :
  packageName (savePackage pkg st) = packageName st /\
  clipboard (savePackage pkg st) = clipboard st.
Proof.
  unfold savePackage. destruct pkg as [p|]; [|split; reflexivity].
  destruct (falsy_string p || Array_includes (usedPackages st) p);
    split; reflexivity.
Qed.

(** A click on the copy button of a mirror, when the clipboard write
    succeeds: the clipboard holds the command of that mirror, the success
    message is shown, and the package name is in the history, in front when
    it was not there and where it was when it was there (a name that is
    used again is not moved to the front).  A second copy changes the
    history no more. *)
Theorem copy_click_success (mirror other : Mirror) (p : jsstring) (st : state) :
  packageName st = Some p -> p <> [] ->
  let st' := copy_click mirror Fulfilled st in
  clipboard st' = Some (js "pip install -i " ++ url mirror ++ js " " ++ p) /\
  showCopyMessage st' = true /\
  (p ∈ usedPackages st') /\
  (p ∈ usedPackages st -> usedPackages st' = usedPackages st) /\
  (p ∉ usedPackages st -> usedPackages st' = p :: usedPackages st) /\
  usedPackages (copy_click other Fulfilled st') = usedPackages st'.
Proof.
  intros Hp Hne st'.
  assert (usedPackages st'
          = if Array_includes (usedPackages st) p then usedPackages st
            else p :: usedPackages st) as Hh.
  { unfold st', copy_click. destruct (copy_success_adds (generateCommand mirror st) st)
      as [-> _].
    unfold savePackage. rewrite Hp.
    apply falsy_string_false in Hne as ->. cbn [orb].
    destruct (Array_includes (usedPackages st) p); reflexivity. }
  assert (packageName st' = Some p) as Hp'.
  { change (packageName
              (savePackage (packageName st)
                 (set_clipboard (Some (generateCommand mirror st)) st)) = Some p).
    destruct (savePackage_keeps_text (packageName st)
                (set_clipboard (Some (generateCommand mirror st)) st)) as [-> _].
    exact Hp. }
  assert (p ∈ usedPackages st') as Hin.
  { rewrite Hh. destruct (Array_includes (usedPackages st) p) eqn:Hi.
    - now apply Array_includes_true.
    - apply elem_of_cons; left; reflexivity. }
  split; [|split; [reflexivity | split; [exact Hin | split; [|split]]]].
  - change (clipboard
              (savePackage (packageName st)
                 (set_clipboard (Some (generateCommand mirror st)) st))
            = Some (js "pip install -i " ++ url mirror ++ js " " ++ p)).
    destruct (savePackage_keeps_text (packageName st)
                (set_clipboard (Some (generateCommand mirror st)) st)) as [_ ->].
    cbn [clipboard set_clipboard]. f_equal.
    unfold generateCommand. rewrite Hp.
    now apply falsy_string_false in Hne as ->.
  - intros Hold. rewrite Hh. apply Array_includes_true in Hold as ->. reflexivity.
  - intros Hnew. rewrite Hh. apply Array_includes_false in Hnew as ->. reflexivity.
  - unfold copy_click. destruct (copy_success_adds (generateCommand other st') st')
      as [-> _].
    unfold savePackage. rewrite Hp'.
    apply Array_includes_true in Hin as ->. now rewrite orb_true_r.
Qed.

(** The success message is hidden when the first pending timer runs out,
    also when a second copy came in between: the second copy starts a timer
    of its own and does not stop the first. *)
Theorem copy_message_timers (text1 text2 : jsstring) (st : state) :
  timers st = [] ->
  let st1 := copyToClipboard text1 Fulfilled st in
  let st2 := copyToClipboard text2 Fulfilled st1 in
  (showCopyMessage st1 = true /\
   showCopyMessage (fire_timer st1) = false /\
   timers (fire_timer st1) = []) /\
  (showCopyMessage st2 = true /\
   showCopyMessage (fire_timer st2) = false /\
   timers (fire_timer st2) = [(HideCopyMessage, 2000)]).
Proof.
  intros Ht st1 st2.
  destruct (copy_success_adds text1 st) as (_ & Hm1 & Ht1).
  destruct (copy_success_adds text2 st1) as (_ & Hm2 & Ht2).
  fold st1 in Hm1, Ht1. fold st2 in Hm2, Ht2.
  rewrite Ht in Ht1. rewrite Ht1 in Ht2. cbn [app] in Ht1, Ht2.
  split; (split; [assumption|]); unfold fire_timer.
  - rewrite Ht1. split; reflexivity.
  - rewrite Ht2. split; reflexivity.
Qed.

(** ** The command blocks *)

Lemma command_url_inj (p u1 u2 : jsstring) :
  js "pip install -i " ++ u1 ++ js " " ++ p
  = js "pip install -i " ++ u2 ++ js " " ++ p -> u1 = u2.
Proof.
  intros Heq. apply app_inv_head in Heq.
  rewrite !app_assoc in Heq. apply app_inv_tail in Heq.
  now apply app_inv_tail in Heq.
Qed.

(** With a package name that is not empty the page shows one command block
    per mirror, in the order of the mirrors, and the commands of two
    blocks differ; the commands of two mirrors agree only when their URLs
    do.  With an empty name, or none, there is no block. *)
Theorem code_blocks_commands (st : state) :
  (falsy (packageName st) = true -> code_blocks st = []) /\
  (forall p, packageName st = Some p -> p <> [] ->
     code_blocks st
     = (fun m => (name m, js "pip install -i " ++ url m ++ js " " ++ p)) <$> mirrors /\
     NoDup (snd <$> code_blocks st) /\
     (forall m1 m2, generateCommand m1 st = generateCommand m2 st -> url m1 = url m2)).
Proof.
  split.
  - intros Hf. unfold code_blocks. now rewrite Hf.
  - intros p Hp Hne.
    assert (forall m, generateCommand m st
                      = js "pip install -i " ++ url m ++ js " " ++ p) as Hcmd.
    { intros m. unfold generateCommand. rewrite Hp.
      now apply falsy_string_false in Hne as ->. }
    assert (code_blocks st
            = (fun m => (name m, js "pip install -i " ++ url m ++ js " " ++ p))
                <$> mirrors) as Hblocks.
    { unfold code_blocks. rewrite Hp. cbn [falsy].
      apply falsy_string_false in Hne as ->.
      apply list_fmap_ext. intros _ m _. now rewrite Hcmd. }
    split; [exact Hblocks | split].
    + rewrite Hblocks, <- list_fmap_compose.
      change (NoDup ((fun u => js "pip install -i " ++ u ++ js " " ++ p)
                       <$> (url <$> mirrors))).
      apply NoDup_fmap_2_strong.
      * intros u1 u2 _ _. apply command_url_inj.
      * apply (bool_decide_unpack (NoDup (url <$> mirrors))). vm_compute. exact I.
    + intros m1 m2. rewrite !Hcmd. apply command_url_inj.
Qed.

(** ** Letter case in the suggestion list *)

Section CaseFacts.

Context `{StringRuntime}.

(** Two texts with the same lower case form suggest the same entries, apart
    from the texts themselves: when neither is an entry of the history, the
    two suggestion lists are equal. *)
Theorem suggestions_ignore_case (s1 s2 : jsstring) (history : list jsstring) :
  s1 <> [] -> s2 <> [] -> toLowerCase s1 = toLowerCase s2 ->
  (forall pkg, pkg <> s1 -> pkg <> s2 ->
     (pkg ∈ suggestions_of (Some s1) history
      <-> pkg ∈ suggestions_of (Some s2) history)) /\
  (s1 ∉ history -> s2 ∉ history ->
   suggestions_of (Some s1) history = suggestions_of (Some s2) history).
Proof.
  intros H1 H2 Hlow. split.
  - intros pkg Hp1 Hp2.
    rewrite (ordered_selection_elem_of _ _ _ pkg
               (suggestions_nonempty_text s1 history H1)).
    rewrite (ordered_selection_elem_of _ _ _ pkg
               (suggestions_nonempty_text s2 history H2)).
    unfold contains_ignoring_case. rewrite Hlow. tauto.
  - intros Hn1 Hn2. unfold suggestions_of.
    apply falsy_string_false in H1 as ->. apply falsy_string_false in H2 as ->.
    apply filter_ext_in. intros pkg Hin. apply list_elem_of_In in Hin.
    rewrite Hlow. f_equal.
    replace (strict_eq pkg s1) with false
      by (symmetry; apply strict_eq_false; congruence).
    replace (strict_eq pkg s2) with false
      by (symmetry; apply strict_eq_false; congruence).
    reflexivity.
Qed.

End CaseFacts.

(** ** The stored text *)

(** [JSON.parse] reads back every array of strings that [JSON.stringify]
    wrote, so two histories with the same stored text are equal; the stored
    text is never the empty string, which the loader takes for a missing
    history. *)
Theorem stringify_parse_roundtrip (a b : list jsstring) :
  JSON.parse (JSON.stringify a) = Some (JSON.JArray (JSON.JString <$> a)) /\
  JSON.as_string_array (JSON.JArray (JSON.JString <$> a)) = Some a /\
  (JSON.stringify a = JSON.stringify b -> a = b) /\
  JSON.stringify a <> [].
Proof.
  split; [apply JSONFacts.parse_stringify | split;
    [apply as_string_array_strings | split; [|discriminate]]].
  intros Heq.
  pose proof (JSONFacts.parse_stringify a) as Ha.
  rewrite Heq, JSONFacts.parse_stringify in Ha.
  injection Ha as Ha.
  assert (Some b = Some a) as Hs
    by (rewrite <- (as_string_array_strings a), <- (as_string_array_strings b);
        now rewrite Ha).
  congruence.
Qed.

(** * The model at work

    The properties above, applied to sample states over the Basic Latin
    runtime, and the runs that separate the code from the specification. *)

#[local] Existing Instance toLowerCase_basic_latin.

Lemma suggestions_ordered_selection_num :
  js "num" <> [] /\
  suggestions_of (Some (js "num")) defaultPackages = [js "numpy"] /\
  ordered_selection
    (fun pkg => contains_ignoring_case (js "num") pkg /\ pkg <> js "num")
    defaultPackages (suggestions_of (Some (js "num")) defaultPackages).
Proof.
  split; [discriminate | split; [reflexivity|]].
  apply (suggestions_ordered_selection (js "num") defaultPackages).
  discriminate.
Defined.

(** The filter ignores case: PAN suggests pandas. *)
Example suggestions_PAN :
  suggestions_of (Some (js "PAN")) [js "pandas"] = [js "pandas"].
Proof. reflexivity. Qed.

(** The scenario of the specification: on a first visit the history is the
    default list; the text num suggests numpy; the Down arrow and Enter put
    numpy into the text input and close the suggestion box. *)
Example first_visit_scenario :
  onMounted (initial ∅) = Normal Samples.first_visit /\
  usedPackages Samples.first_visit = defaultPackages /\
  input (js "num") Samples.first_visit = Samples.typed_num /\
  suggestions Samples.typed_num = [js "numpy"] /\
  packageName (press (js "Enter") (press (js "ArrowDown") Samples.typed_num))
    = Some (js "numpy") /\
  closed (press (js "Enter") (press (js "ArrowDown") Samples.typed_num)).
Proof. repeat split. Qed.

Example foreign_theme_mounted :
  onMounted (initial {[ js "darkMode" := js "1" ]}) = Normal Samples.foreign_theme.
Proof. reflexivity. Qed.

Lemma Escape_closes_typed_num :
  suggestions Samples.typed_num <> [] /\
  closed (press (js "Escape") Samples.typed_num) /\
  showSuggestions (press (js "Escape") Samples.typed_num) = false.
Proof.
  destruct (Escape_closes Samples.typed_num) as (Hc & _ & _ & Hs).
  split; [discriminate | split; [exact Hc | apply Hs; discriminate]].
Defined.

(** Over the empty suggestion list the Escape key leaves the flag
    [showSuggestions] as it is; the box is hidden for want of suggestions. *)
Example Escape_no_suggestion :
  let st := input (js "zzz") Samples.first_visit in
  suggestions st = [] /\
  showSuggestions (press (js "Escape") st) = true /\
  closed (press (js "Escape") st).
Proof. repeat split. Qed.

Lemma ArrowDown_cycle_typed_p :
  (suggestions Samples.typed_p_second <> [] /\
   -1 <= selectedIndex Samples.typed_p_second
      < suggestions_length Samples.typed_p_second) /\
  selectedIndex (press (js "ArrowDown") Samples.typed_p_second) = 2 /\
  presses (length (suggestions Samples.typed_p_second)) (js "ArrowDown")
    Samples.typed_p_second = Samples.typed_p_second.
Proof.
  assert (suggestions Samples.typed_p_second <> []) as Hs by discriminate.
  assert (-1 <= selectedIndex Samples.typed_p_second
             < suggestions_length Samples.typed_p_second) as Hi
    by (vm_compute; split; [discriminate | reflexivity]).
  destruct (ArrowDown_cycle Samples.typed_p_second Hs Hi) as (Hstep & Hback & _).
  split; [split; assumption | split].
  - rewrite Hstep. reflexivity.
  - apply Hback. vm_compute; discriminate.
Defined.

Lemma ArrowUp_wraps_samples :
  (suggestions Samples.typed_p_second <> [] /\
   -1 <= selectedIndex Samples.typed_p_second
      < suggestions_length Samples.typed_p_second) /\
  selectedIndex (press (js "ArrowUp") Samples.typed_p_second) = 0 /\
  selectedIndex (press (js "ArrowUp") Samples.typed_num) = 0.
Proof.
  assert (suggestions Samples.typed_p_second <> []) as Hs by discriminate.
  assert (-1 <= selectedIndex Samples.typed_p_second
             < suggestions_length Samples.typed_p_second) as Hi
    by (vm_compute; split; [discriminate | reflexivity]).
  destruct (ArrowUp_wraps Samples.typed_p_second Hs Hi) as (_ & Hprev & _).
  split; [split; assumption | split; [|reflexivity]].
  rewrite Hprev by reflexivity. reflexivity.
Defined.

(** C4, as stated, fails from the index -1: over the one suggestion numpy,
    one press of the Down arrow leads from -1 to 0 and not back to -1. *)
Lemma ArrowDown_from_no_selection :
  suggestions Samples.typed_num = [js "numpy"] /\
  selectedIndex Samples.typed_num = -1 /\
  selectedIndex
    (presses (length (suggestions Samples.typed_num)) (js "ArrowDown")
       Samples.typed_num) = 0.
Proof. repeat split. Qed.

Lemma Enter_without_selection_typed_num :
  (suggestions Samples.typed_num <> [] /\ selectedIndex Samples.typed_num = -1) /\
  handleKeydown (mkKeyboardEvent (js "Enter") false) Samples.typed_num
    = (mkKeyboardEvent (js "Enter") false, Samples.typed_num).
Proof.
  assert (suggestions Samples.typed_num <> []) as Hs by discriminate.
  destruct (Enter_without_selection Samples.typed_num Hs) as (Hsame & _ & _).
  split; [split; [exact Hs | reflexivity] | apply Hsame; reflexivity].
Defined.

Lemma generateCommand_text_pandas :
  (packageName Samples.named_pandas = Some (js "pandas") /\ js "pandas" <> []) /\
  generateCommand Samples.aliyun Samples.named_pandas
    = js "pip install -i https://mirrors.aliyun.com/pypi/simple pandas".
Proof.
  destruct (generateCommand_text Samples.aliyun (js "pandas") Samples.named_pandas
              eq_refl) as [Hcmd _].
  split; [split; [reflexivity | discriminate]|].
  rewrite Hcmd by discriminate. reflexivity.
Defined.

Example generateCommand_empty :
  generateCommand Samples.aliyun Samples.first_visit = [].
Proof. reflexivity. Qed.

Lemma savePackage_history_first_visit :
  ((js "pandas" ∈ usedPackages Samples.first_visit) /\
   savePackage (Some (js "pandas")) Samples.first_visit = Samples.first_visit) /\
  ((js "scipy" <> [] /\ js "scipy" ∉ usedPackages Samples.first_visit) /\
   usedPackages (savePackage (Some (js "scipy")) Samples.first_visit)
     = js "scipy" :: defaultPackages).
Proof.
  assert (js "pandas" ∈ usedPackages Samples.first_visit) as Hin
    by (apply Array_includes_true; reflexivity).
  assert (js "scipy" ∉ usedPackages Samples.first_visit) as Hnin
    by (apply Array_includes_false; reflexivity).
  destruct (savePackage_history (js "pandas") Samples.first_visit) as [Hsame _].
  destruct (savePackage_history (js "scipy") Samples.first_visit) as [_ Hnew].
  split; [split; [exact Hin | exact (Hsame Hin)]|].
  split; [split; [discriminate | exact Hnin]|].
  destruct (Hnew ltac:(discriminate) Hnin) as [Hh _]. exact Hh.
Defined.

Lemma deletePackage_history_first_visit :
  usedPackages (deletePackage (js "numpy") Samples.first_visit)
    = [js "pandas"; js "requests"; js "pillow"; js "flask"] /\
  ((js "scipy" ∉ usedPackages Samples.first_visit) /\
   usedPackages (deletePackage (js "scipy") Samples.first_visit)
     = usedPackages Samples.first_visit).
Proof.
  assert (js "scipy" ∉ usedPackages Samples.first_visit) as Hnin
    by (apply Array_includes_false; reflexivity).
  destruct (deletePackage_history (js "scipy") Samples.first_visit) as (_ & _ & Hsame).
  split; [reflexivity | split; [exact Hnin | exact (Hsame Hnin)]].
Defined.

Example copy_failure_first_visit :
  copyToClipboard (js "pip") (Rejected (js "NotAllowedError")) Samples.named_pandas
  = console_error (js "Failed to copy text: ") (js "NotAllowedError")
      Samples.named_pandas.
Proof. reflexivity. Qed.

Lemma toggleTheme_twice_after_toggle :
  let st := toggleTheme Samples.first_visit in
  getItem (js "darkMode") st = Some (String_of_bool (isDarkMode st)) /\
  isDarkMode (toggleTheme (toggleTheme st)) = isDarkMode st /\
  localStorage (toggleTheme (toggleTheme st)) = localStorage st.
Proof.
  intros st.
  destruct (toggleTheme_twice st) as (Hb & _ & _ & Hs).
  split; [reflexivity | split; [exact Hb | apply Hs; reflexivity]].
Defined.

(** C9, as stated, fails on a first visit: nothing is stored under darkMode
    and the theme is light; after two toggles the theme is light again but
    the literal false is stored.  It fails as well over a stored text that
    is neither literal: the text 1 is read as the light theme, and two
    toggles replace it by the literal false. *)
Lemma toggleTheme_twice_first_visit :
  (getItem (js "darkMode") Samples.first_visit = None /\
   isDarkMode Samples.first_visit = false /\
   getItem (js "darkMode") (toggleTheme (toggleTheme Samples.first_visit))
     = Some (js "false")) /\
  (getItem (js "darkMode") Samples.foreign_theme = Some (js "1") /\
   isDarkMode Samples.foreign_theme = false /\
   getItem (js "darkMode") (toggleTheme (toggleTheme Samples.foreign_theme))
     = Some (js "false")).
Proof. repeat split. Qed.

Lemma history_survives_reload_first_visit :
  history_stored Samples.first_visit /\
  loadUsedPackages (initial (localStorage Samples.first_visit))
  = Normal (set_usedPackages defaultPackages
              (initial (localStorage Samples.first_visit))).
Proof.
  assert (history_stored Samples.first_visit) as Hst by reflexivity.
  split; [exact Hst | exact (history_survives_reload Samples.first_visit Hst)].
Defined.

Lemma loadUsedPackages_history_samples :
  (getItem (js "usedPackages") (initial ∅) = None /\
   loadUsedPackages (initial ∅) = Normal Samples.first_visit) /\
  (JSON.parse (JSON.stringify [js "scipy"; js "pandas"])
     = Some (JSON.JArray (JSON.JString <$> [js "scipy"; js "pandas"])) /\
   loadUsedPackages (initial Samples.saved_storage)
     = Normal (set_usedPackages [js "scipy"; js "pandas"]
                 (initial Samples.saved_storage))).
Proof.
  destruct (loadUsedPackages_history (initial ∅)) as [Hfresh _].
  destruct (loadUsedPackages_history (initial Samples.saved_storage))
    as (_ & Hsaved & _).
  split; [split; [reflexivity|] | split; [reflexivity|]].
  - rewrite Hfresh by (left; reflexivity). reflexivity.
  - apply (Hsaved (JSON.stringify [js "scipy"; js "pandas"]));
      [reflexivity | discriminate | reflexivity].
Defined.

(** C2, as stated, fails on a stored text that is no JSON text: [JSON.parse]
    throws and nothing catches the exception, so the mount hook ends there
    and the theme preference is not loaded either.  The text is refused for
    its first character, whatever the bound on the nesting depth. *)
Lemma loadUsedPackages_corrupt :
  getItem (js "usedPackages") (initial Samples.corrupt_storage)
    = Some (js "pandas,numpy") /\
  (forall fuel, JSON.parse_value fuel (js "pandas,numpy") = None) /\
  loadUsedPackages (initial Samples.corrupt_storage) = Throw SyntaxError /\
  onMounted (initial Samples.corrupt_storage) = Throw SyntaxError.
Proof.
  split; [reflexivity | split; [|split; reflexivity]].
  intros [|fuel]; reflexivity.
Qed.

(** ** More of the model at work *)

(** The session that leaves the index past the end, and what Enter does
    there. *)
Example stale_session_state :
  let st := session Samples.stale_session Samples.first_visit in
  suggestions st = [js "pandas"; js "numpy"] /\ selectedIndex st = 2.
Proof. split; reflexivity. Qed.

Lemma Enter_past_end_stale :
  let st := session Samples.stale_session Samples.first_visit in
  (suggestions st <> [] /\ suggestions_length st <= selectedIndex st) /\
  packageName (press (js "Enter") st) = None /\
  code_blocks (press (js "Enter") st) = [].
Proof.
  intros st.
  assert (suggestions st <> []) as Hs by discriminate.
  assert (suggestions_length st <= selectedIndex st) as Hi
    by (vm_compute; discriminate).
  destruct (Enter_past_end st Hs Hi) as (Hp & _ & _ & Hc & _).
  split; [split; assumption | split; assumption].
Defined.

Lemma Enter_is_click_numpy :
  (0 <= selectedIndex Samples.typed_p_second /\
   suggestions Samples.typed_p_second
     !! Z.to_nat (selectedIndex Samples.typed_p_second) = Some (js "numpy")) /\
  press (js "Enter") Samples.typed_p_second
    = selectSuggestion (js "numpy") Samples.typed_p_second.
Proof.
  assert (0 <= selectedIndex Samples.typed_p_second) as Hi
    by (vm_compute; discriminate).
  assert (suggestions Samples.typed_p_second
            !! Z.to_nat (selectedIndex Samples.typed_p_second) = Some (js "numpy"))
    as Hs by reflexivity.
  destruct (Enter_is_click Samples.typed_p_second (js "numpy") Hi Hs) as [Hc _].
  split; [split; assumption | exact Hc].
Defined.

Lemma type_ArrowDown_Enter_p :
  suggestions (input (js "p") Samples.first_visit)
    = js "pandas" :: [js "numpy"; js "pillow"] /\
  packageName
    (press (js "Enter")
       (press (js "ArrowDown") (input (js "p") Samples.first_visit)))
    = Some (js "pandas").
Proof.
  assert (suggestions (input (js "p") Samples.first_visit)
          = js "pandas" :: [js "numpy"; js "pillow"]) as Hs by reflexivity.
  destruct (type_ArrowDown_Enter (js "p") (js "pandas") [js "numpy"; js "pillow"]
              Samples.first_visit Hs) as (_ & _ & Hp & _).
  split; [exact Hs | exact Hp].
Defined.

Lemma ArrowUp_cycle_typed_p :
  (suggestions Samples.typed_p_second <> [] /\
   -1 <= selectedIndex Samples.typed_p_second
      < suggestions_length Samples.typed_p_second) /\
  presses (length (suggestions Samples.typed_p_second)) (js "ArrowUp")
    Samples.typed_p_second = Samples.typed_p_second.
Proof.
  assert (suggestions Samples.typed_p_second <> []) as Hs by discriminate.
  assert (-1 <= selectedIndex Samples.typed_p_second
             < suggestions_length Samples.typed_p_second) as Hi
    by (vm_compute; split; [discriminate | reflexivity]).
  destruct (ArrowUp_cycle Samples.typed_p_second Hs Hi) as [Hback _].
  destruct (Hback ltac:(vm_compute; discriminate)) as [Hcycle _].
  split; [split; assumption | exact Hcycle].
Defined.

Lemma defaultPackages_NoDup : NoDup defaultPackages.
Proof. apply (bool_decide_unpack (NoDup defaultPackages)). vm_compute. exact I. Qed.

Lemma history_NoDup_busy_session :
  NoDup (usedPackages Samples.first_visit) /\
  NoDup (usedPackages (session Samples.busy_session Samples.first_visit)).
Proof.
  assert (NoDup (usedPackages Samples.first_visit)) as Hnd
    by exact defaultPackages_NoDup.
  split; [exact Hnd|].
  exact (history_NoDup_session Samples.busy_session Samples.first_visit Hnd).
Defined.

Example busy_session_history :
  usedPackages (session Samples.busy_session Samples.first_visit)
  = [js "scipy"; js "pandas"; js "numpy"; js "requests"; js "flask"].
Proof. reflexivity. Qed.

Lemma history_stored_busy_session :
  history_stored Samples.first_visit /\
  history_stored (session Samples.busy_session Samples.first_visit).
Proof.
  assert (history_stored Samples.first_visit) as Hst by reflexivity.
  split; [exact Hst|].
  exact (history_stored_session Samples.busy_session Samples.first_visit Hst).
Defined.

Lemma theme_busy_session :
  (theme_stored Samples.first_visit /\
   body_dark_mode Samples.first_visit = isDarkMode Samples.first_visit) /\
  theme_stored (session Samples.busy_session Samples.first_visit) /\
  isDarkMode (session Samples.busy_session Samples.first_visit) = true.
Proof.
  assert (theme_stored Samples.first_visit) as Hth
    by (right; split; reflexivity).
  assert (body_dark_mode Samples.first_visit = isDarkMode Samples.first_visit)
    as Hb by reflexivity.
  destruct (theme_session Samples.busy_session Samples.first_visit Hth Hb)
    as [Hth' _].
  split; [split; assumption | split; [exact Hth' | reflexivity]].
Defined.

Lemma index_lower_busy_session :
  -1 <= selectedIndex Samples.first_visit /\
  -1 <= selectedIndex (session Samples.busy_session Samples.first_visit).
Proof.
  assert (-1 <= selectedIndex Samples.first_visit) as Hi
    by (vm_compute; discriminate).
  split; [exact Hi|].
  exact (index_lower_session Samples.busy_session Samples.first_visit Hi).
Defined.

Lemma onMounted_restores_busy_session :
  let st := session Samples.busy_session Samples.first_visit in
  (history_stored st /\ theme_stored st) /\
  onMounted (initial (localStorage st))
  = Normal (mkState (Some []) false
              [js "scipy"; js "pandas"; js "numpy"; js "requests"; js "flask"]
              true false (-1) (localStorage st) true None [] []).
Proof.
  intros st.
  assert (history_stored st) as Hh by reflexivity.
  assert (theme_stored st) as Ht by (left; reflexivity).
  split; [split; assumption|].
  exact (onMounted_restores st Hh Ht).
Defined.

Lemma deletePackage_undoes_savePackage_scipy :
  (js "scipy" <> [] /\ js "scipy" ∉ usedPackages Samples.first_visit) /\
  deletePackage (js "scipy") (savePackage (Some (js "scipy")) Samples.first_visit)
    = Samples.first_visit.
Proof.
  assert (js "scipy" <> []) as Hne by discriminate.
  assert (js "scipy" ∉ usedPackages Samples.first_visit) as Hnin
    by (apply Array_includes_false; reflexivity).
  destruct (deletePackage_undoes_savePackage (js "scipy") Samples.first_visit
              Hne Hnin) as [_ Hback].
  split; [split; assumption | apply Hback; reflexivity].
Defined.

Lemma copy_click_success_pandas :
  (packageName Samples.named_pandas = Some (js "pandas") /\ js "pandas" <> []) /\
  clipboard (copy_click Samples.aliyun Fulfilled Samples.named_pandas)
    = Some (js "pip install -i https://mirrors.aliyun.com/pypi/simple pandas") /\
  usedPackages (copy_click Samples.aliyun Fulfilled Samples.named_pandas)
    = defaultPackages.
Proof.
  assert (js "pandas" <> []) as Hne by discriminate.
  destruct (copy_click_success Samples.aliyun Samples.aliyun (js "pandas")
              Samples.named_pandas eq_refl Hne) as (Hc & _ & _ & Hold & _).
  split; [split; [reflexivity | exact Hne] | split].
  - rewrite Hc. reflexivity.
  - apply Hold. apply Array_includes_true. reflexivity.
Defined.

Lemma copy_message_timers_first_visit :
  timers Samples.named_pandas = [] /\
  showCopyMessage
    (fire_timer
       (copyToClipboard (js "b") Fulfilled
          (copyToClipboard (js "a") Fulfilled Samples.named_pandas))) = false /\
  timers
    (fire_timer
       (copyToClipboard (js "b") Fulfilled
          (copyToClipboard (js "a") Fulfilled Samples.named_pandas)))
    = [(HideCopyMessage, 2000)].
Proof.
  destruct (copy_message_timers (js "a") (js "b") Samples.named_pandas eq_refl)
    as (_ & _ & Hm & Ht).
  split; [reflexivity | split; [exact Hm | exact Ht]].
Defined.

Lemma suggestions_ignore_case_PAN :
  (js "PAN" <> [] /\ js "pan" <> [] /\
   toLowerCase (js "PAN") = toLowerCase (js "pan")) /\
  suggestions_of (Some (js "PAN")) defaultPackages
    = suggestions_of (Some (js "pan")) defaultPackages.
Proof.
  assert (js "PAN" <> []) as H1 by discriminate.
  assert (js "pan" <> []) as H2 by discriminate.
  assert (toLowerCase (js "PAN") = toLowerCase (js "pan")) as Hl by reflexivity.
  destruct (suggestions_ignore_case (js "PAN") (js "pan") defaultPackages H1 H2 Hl)
    as [_ Heq].
  split; [repeat split; assumption|].
  apply Heq; apply Array_includes_false; reflexivity.
Defined.
